(** * QAOA from a bitflip oracle: a shallow embedding of
    [optimizer_comparison/std_qaoa/qaoa_from_bitflip.py]

    The Python module builds a phase-separation (cost) circuit from a
    compiled Boolean formula, derives an objective function on measured
    bitstrings, and drives a classical optimizer through an executor closure
    that records the best objective value seen.

    Modelling conventions.
    - Python [int] is [Z].  The driver only compares and stores objective
      values, and there a Python [float] is the rational it denotes ([Q]);
      the value [obj_fn] computes is modelled with IEEE doubles in the module
      [Floating].  [np.abs] works on 64-bit integers ([np_abs]).  Numbers
      that involve [np.pi] or a free circuit parameter stay symbolic
      ([pexpr]) and are given their real value by [pexpr_eval].
    - A Python exception is a value [Raise e] of the [result] type; [e]
      carries the class name.
    - A list or dictionary is modelled by its contents at the time it is
      passed; repetition and shot counts are natural numbers.
    - Library objects (qiskit circuits, the formula compiler, the backend,
      the optimizer) are modelled by the part of their contract that the
      module relies on; each such model says so where it is declared. *)

From Stdlib Require Import ZArith QArith Qpower Qreals Reals Psatz Lia.
From Stdlib Require Import List String Ascii Bool.
From Stdlib Require DecimalString DecimalZ Permutation.
From Stdlib Require Import SpecFloat.
Import ListNotations.

Local Open Scope string_scope.
Local Open Scope list_scope.

(* ================================================================== *)
(** ** Exceptions and fallible computations *)

(** A raised exception, identified by the name of its class. *)
Inductive exn : Type := Exn (cls : string).

Definition ZeroDivisionError : exn := Exn "ZeroDivisionError".
Definition IndexError : exn := Exn "IndexError".
Definition AttributeError : exn := Exn "AttributeError".
Definition CircuitError : exn := Exn "CircuitError".

Inductive result (A : Type) : Type :=
| Ok (a : A)
| Raise (e : exn).
Arguments Ok {A} a.
Arguments Raise {A} e.

Definition rbind {A B} (r : result A) (k : A -> result B) : result B :=
  match r with
  | Ok a => k a
  | Raise e => Raise e
  end.

Declare Scope result_scope.
Delimit Scope result_scope with result.
Notation "'try' x <- r ;; k" := (rbind r (fun x => k))
  (at level 61, x name, r at next level, right associativity) : result_scope.

Local Open Scope result_scope.

(** [for x in xs: acc = body(acc, x)], stopping at the first exception. *)
Fixpoint for_each {A S} (body : S -> A -> result S) (xs : list A) (acc : S)
  : result S :=
  match xs with
  | [] => Ok acc
  | x :: rest => try acc' <- body acc x ;; for_each body rest acc'
  end.

(** [[f(x) for x in xs]], stopping at the first exception. *)
Fixpoint map_result {A B} (f : A -> result B) (xs : list A) : result (list B) :=
  match xs with
  | [] => Ok []
  | x :: rest =>
      try y <- f x ;; try ys <- map_result f rest ;; Ok (y :: ys)
  end.

(** Python's [range(lo, hi)]. *)
Definition py_range (lo hi : Z) : list Z :=
  map (fun i => (lo + Z.of_nat i)%Z) (seq 0 (Z.to_nat (hi - lo))).

(* ================================================================== *)
(** ** Numbers that stay symbolic *)

(** Gate angles and optimizer parameters.  [PFloat q] is a float known as a
    rational, [PPi] is [np.pi], [PParam s] is a free qiskit [Parameter]
    named [s], and [PMul] is the product the source writes with [*]. *)
Inductive pexpr : Type :=
| PInt (z : Z)
| PFloat (q : Q)
| PPi
| PParam (name : string)
| PMul (a b : pexpr).

(** The real number a [pexpr] stands for, once free parameters are bound. *)
Fixpoint pexpr_eval (env : string -> R) (e : pexpr) : R :=
  match e with
  | PInt z => IZR z
  | PFloat q => Q2R q
  | PPi => PI
  | PParam s => env s
  | PMul a b => (pexpr_eval env a * pexpr_eval env b)%R
  end.

(** Free parameters occurring in an expression. *)
Fixpoint pexpr_params (e : pexpr) : list string :=
  match e with
  | PParam s => [s]
  | PMul a b => pexpr_params a ++ pexpr_params b
  | _ => []
  end.

(* ================================================================== *)
(** ** Quantum circuits (the part of qiskit's [QuantumCircuit] in use) *)

Module Circuit.

(** An instruction applied to resolved qubit positions.  [Composite] is a
    whole circuit appended as one instruction ([QuantumCircuit.append] of a
    circuit): it keeps the appended circuit's qubit count and instruction
    list unmodified, together with the qubits it is placed on. *)
#[warnings="-register-all"]
Inductive instruction : Type :=
| XGate (q : nat)
| PhaseGate (theta : pexpr) (q : nat)
| RXGate (theta : pexpr) (q : nat)
| Composite (sub_qubits : nat) (sub_data : list instruction) (qargs : list nat).

Record QuantumCircuit : Type := mkCircuit {
  num_qubits : nat;
  data : list instruction
}.

(** [QuantumCircuit(n)] / [QuantumCircuit(QuantumRegister(n))]: a register
    of negative size is refused. *)
Definition new_circuit (n : Z) : result QuantumCircuit :=
  if (n <? 0)%Z then Raise CircuitError
  else Ok (mkCircuit (Z.to_nat n) []).

(** An integer qubit argument indexes the circuit's qubit list the way a
    Python list is indexed: negative indices count from the end, and an
    index outside [-n, n) raises. *)
Definition qubit_arg (c : QuantumCircuit) (i : Z) : result nat :=
  let n := Z.of_nat (num_qubits c) in
  if ((0 <=? i) && (i <? n))%Z then Ok (Z.to_nat i)
  else if ((- n <=? i) && (i <? 0))%Z then Ok (Z.to_nat (n + i))
  else Raise CircuitError.

Definition push (c : QuantumCircuit) (g : instruction) : QuantumCircuit :=
  mkCircuit (num_qubits c) (data c ++ [g]).

(** [circ.x(q)] *)
Definition x (c : QuantumCircuit) (q : Z) : result QuantumCircuit :=
  try k <- qubit_arg c q ;; Ok (push c (XGate k)).

(** [circ.p(theta, q)] *)
Definition p (c : QuantumCircuit) (theta : pexpr) (q : Z)
  : result QuantumCircuit :=
  try k <- qubit_arg c q ;; Ok (push c (PhaseGate theta k)).

(** [circ.rx(theta, q)] *)
Definition rx (c : QuantumCircuit) (theta : pexpr) (q : Z)
  : result QuantumCircuit :=
  try k <- qubit_arg c q ;; Ok (push c (RXGate theta k)).

Fixpoint has_dup (l : list nat) : bool :=
  match l with
  | [] => false
  | a :: rest => existsb (Nat.eqb a) rest || has_dup rest
  end.

(** [circ.append(sub, qargs)]: every qubit argument is resolved, the number
    of arguments must be the appended circuit's qubit count, and no qubit
    may be used twice. *)
Definition append (c sub : QuantumCircuit) (qargs : list Z)
  : result QuantumCircuit :=
  try ks <- map_result (qubit_arg c) qargs ;;
  if negb (List.length ks =? num_qubits sub)%nat then Raise CircuitError
  else if has_dup ks then Raise CircuitError
  else Ok (push c (Composite (num_qubits sub) (data sub) ks)).

End Circuit.

Import Circuit.

(* ================================================================== *)
(** ** Compiled Boolean formulas *)

(** The formula object is produced by an external compiler.  The module
    uses three of its capabilities: the list of argument names [args], the
    oracle synthesis [synth()], and the classical evaluation [simulate]. *)
Record Formula : Type := mkFormula {
  args : list string;
  synth : result QuantumCircuit;
  simulate : list bool -> result (list bool)
}.

(* ================================================================== *)
(** ** [standard_mixer] and [get_cost_circuit] *)

(** The name given to the mixer's parameter: the Python literal
    ["$\\beta$"], that is dollar, backslash, b-e-t-a, dollar. *)
Definition beta_name : string := "$\beta$".

Definition standard_mixer (n : Z) : result QuantumCircuit :=
  let beta := PParam beta_name in
  try circ <- new_circuit n ;;
  for_each (fun circ i => rx circ (PMul (PInt 2) beta) i) (py_range 0 n) circ.

Definition get_cost_circuit (input_formula : Formula) : result QuantumCircuit :=
  try bcirc <- synth input_formula ;;
  try cost_circ <- new_circuit (Z.of_nat (num_qubits bcirc)) ;;
  try cost_circ <- x cost_circ (Z.of_nat (num_qubits bcirc) - 1) ;;
  try cost_circ <- append cost_circ bcirc
                     (py_range 0 (Z.of_nat (num_qubits cost_circ))) ;;
  try cost_circ <- p cost_circ (PMul (PInt (-1)) PPi)
                     (Z.of_nat (num_qubits cost_circ) - 1) ;;
  try cost_circ <- append cost_circ bcirc
                     (py_range 0 (Z.of_nat (num_qubits bcirc))) ;;
  try cost_circ <- x cost_circ (Z.of_nat (num_qubits cost_circ) - 1) ;;
  Ok cost_circ.

(* ================================================================== *)
(** ** [get_objective_fn] *)

(** Python's [s[start:]] on a sequence: a negative [start] counts from the
    end, and the bound is clamped to the sequence. *)
Definition py_slice_from {A} (start : Z) (s : list A) : list A :=
  let len := Z.of_nat (List.length s) in
  let lo := if (start <? 0)%Z then Z.max (start + len) 0 else Z.min start len in
  skipn (Z.to_nat lo) s.

(** Python's [l[i]] for a non-negative literal index. *)
Definition py_index {A} (l : list A) (i : nat) : result A :=
  match nth_error l i with
  | Some a => Ok a
  | None => Raise IndexError
  end.

(** [[c == '1' for c in reversed(inputs_str)]] *)
Definition bits_of_reversed (inputs_str : list ascii) : list bool :=
  map (fun c => Ascii.eqb c "1"%char) (rev inputs_str).

(** The closure [cf] returned by [get_objective_fn(input_formula)]. *)
Definition get_objective_fn (input_formula : Formula) : string -> result Z :=
  let num_input_qubits := Z.of_nat (List.length (args input_formula)) in
  fun bitvec =>
    let inputs_str :=
      py_slice_from (- num_input_qubits) (list_ascii_of_string bitvec) in
    let inputs := bits_of_reversed inputs_str in
    try output <- simulate input_formula inputs ;;
    try out0 <- py_index output 0 ;;
    Ok (if out0 : bool then 0%Z else 1%Z).

(* ================================================================== *)
(** ** The driver class [QAOAbf] *)

(** A parameter vector handed to the executor. *)
Definition params : Type := list pexpr.

(** A measurement-count dictionary, as the sequence [counts.items()] walks
    it (insertion order). *)
Definition counts : Type := list (string * Z).

(** The attributes of a [QAOAbf] instance.  [__init__] sets the first three;
    [best_fval] and [best_params] exist only once [run] has assigned them,
    so an absent attribute is [None] here, and [best_params] holding
    Python's [None] is [Some None].  The objective function is a callable
    without side effects, as the closure of [get_objective_fn] is: it
    returns a number or raises. *)
Record QAOAbf : Type := mkQAOAbf {
  cost_op : QuantumCircuit;
  obj_value_fn : string -> result Q;
  init_circuit : option QuantumCircuit;
  best_fval : option Q;
  best_params : option (option params)
}.

(** [QAOAbf(cost_op, obj_value_fn, init_circuit)] *)
Definition init (cost_op : QuantumCircuit) (obj_value_fn : string -> result Q)
    (init_circuit : option QuantumCircuit) : QAOAbf :=
  mkQAOAbf cost_op obj_value_fn init_circuit None None.

(** [float(a) / float(b)] as the driver sees it: [ZeroDivisionError] on a
    zero divisor, and a number otherwise.  The number is the exact quotient
    here: [execute] and [run] only compare and store the value of [obj_fn],
    and the properties of the driver are stated over this idealisation.
    What Python's doubles make of the value (rounding, [OverflowError]) is
    the subject of [Floating.obj_fn] below. *)
Definition float_div (a b : Q) : result Q :=
  if Qeq_bool b 0 then Raise ZeroDivisionError else Ok (a / b)%Q.

(** One iteration of the loop in [obj_fn]. *)
Definition obj_fn_step (self : QAOAbf) (acc : Q * Z) (item : string * Z)
  : result (Q * Z) :=
  let '(sum_obj, num_entries) := acc in
  let '(bitvec, count) := item in
  try obj <- obj_value_fn self bitvec ;;
  Ok ((sum_obj + obj * inject_Z count)%Q, (num_entries + count)%Z).

Definition obj_fn (self : QAOAbf) (cts : counts) : result Q :=
  try acc <- for_each (obj_fn_step self) cts (0%Q, 0%Z) ;;
  let '(sum_obj, num_entries) := acc in
  float_div sum_obj (inject_Z num_entries).

(** [a < b] on numbers, as a boolean. *)
Definition Qltb (a b : Q) : bool := negb (Qle_bool b a).

(** The value [run] stores in [best_fval] before optimizing. *)
Definition initial_best_fval : Q := inject_Z 1000.

Section Driver.

(** Library collaborators of the driver.  [QAOAAnsatz self.cost_op p] stands
    for [QAOAAnsatz(cost_operator=..., reps=p)] followed by [measure_all()];
    [transpile] compiles for the backend; [backend_run tcirc ps shots] stands
    for [tcirc.bind_parameters(ps)], [backend.run(..., shots=shots)],
    [.result()] and [.get_counts(...)] together, and may change the
    backend's own state [BState]. *)
Variable Ansatz TCirc BState OptResult : Type.
Variable QAOAAnsatz : QuantumCircuit -> nat -> result Ansatz.
Variable transpile : Ansatz -> result TCirc.
Variable backend_run :
  TCirc -> option params -> nat -> BState -> result counts * BState.

(** What a method of the driver can read and change: the instance [self]
    and the backend. *)
Record World : Type := mkWorld {
  self : QAOAbf;
  backend : BState
}.

(** Computations that may raise and that thread the [World]; the state
    reached when an exception is raised is kept. *)
Definition M (A : Type) : Type := World -> result A * World.

Definition ret {A} (a : A) : M A := fun w => (Ok a, w).

Definition mbind {A B} (m : M A) (k : A -> M B) : M B :=
  fun w =>
    match m w with
    | (Ok a, w') => k a w'
    | (Raise e, w') => (Raise e, w')
    end.

Notation "'do' x <- m ;; k" := (mbind m (fun x => k))
  (at level 61, x name, m at next level, right associativity).

Definition lift {A} (r : result A) : M A := fun w => (r, w).

Definition get_self : M QAOAbf := fun w => (Ok (self w), w).

Definition set_best_fval (v : Q) : M unit :=
  fun w =>
    let s := self w in
    (Ok tt, mkWorld (mkQAOAbf (cost_op s) (obj_value_fn s) (init_circuit s)
                       (Some v) (best_params s)) (backend w)).

Definition set_best_params (v : option params) : M unit :=
  fun w =>
    let s := self w in
    (Ok tt, mkWorld (mkQAOAbf (cost_op s) (obj_value_fn s) (init_circuit s)
                       (best_fval s) (Some v)) (backend w)).

(** Reading an attribute that was never assigned raises. *)
Definition getattr {A} (field : QAOAbf -> option A) : M A :=
  fun w =>
    match field (self w) with
    | Some v => (Ok v, w)
    | None => (Raise AttributeError, w)
    end.

Definition call_backend (tcirc : TCirc) (ps : option params) (shots : nat)
  : M counts :=
  fun w =>
    let '(r, b') := backend_run tcirc ps shots (backend w) in
    (r, mkWorld (self w) b').

Definition build_circuit (p : nat) : M Ansatz :=
  do s <- get_self ;; lift (QAOAAnsatz (cost_op s) p).

(** The closure [execute] of [get_executor], for the transpiled circuit and
    the shot count it closes over. *)
Definition execute (tcirc : TCirc) (shots : nat) (paramlist : params) : M Q :=
  do cts <- call_backend tcirc (Some paramlist) shots ;;
  do s <- get_self ;;
  do obj_val <- lift (obj_fn s cts) ;;
  do best <- getattr best_fval ;;
  do _ <- (if Qltb obj_val best
           then do _ <- set_best_fval obj_val ;;
                set_best_params (Some paramlist)
           else ret tt) ;;
  ret obj_val.

Definition get_executor (p shots : nat) : M (params -> M Q) :=
  do circuit <- build_circuit p ;;
  do tcirc <- lift (transpile circuit) ;;
  ret (execute tcirc shots).

Definition get_outputs (p : nat) (parameters : option params) (shots : nat)
  : M counts :=
  do circuit <- build_circuit p ;;
  do tcirc <- lift (transpile circuit) ;;
  call_backend tcirc parameters shots.

(** [[np.random.random_sample()*np.pi for i in range(0, 2*p)]]; [rnd i] is
    what the [i]-th call of [random_sample] returns. *)
Definition sample_initial_parameters (p : nat) (rnd : nat -> Q) : params :=
  map (fun i => PMul (PFloat (rnd (Z.to_nat i))) PPi)
      (py_range 0 (2 * Z.of_nat p)).

(** The first two statements of [run]. *)
Definition reset_best : M unit :=
  do _ <- set_best_fval initial_best_fval ;;
  set_best_params None.

(** The optimizer is a black box that receives the executor and the
    starting point: [optimizer fun x0] is [optimizer.minimize(fun=..., x0=...)]. *)
Definition Optimizer : Type := (params -> M Q) -> params -> M OptResult.

(** The statements of [run] after the reset. *)
Definition run_optimize (p shots : nat) (optimizer : Optimizer)
    (initial_parameters : option params) (rnd : nat -> Q)
  : M (OptResult * counts * Q * option params) :=
  do execfn <- get_executor p shots ;;
  let initial_parameters :=
    match initial_parameters with
    | None => sample_initial_parameters p rnd
    | Some given => given
    end in
  do result <- optimizer execfn initial_parameters ;;
  do bp <- getattr best_params ;;
  do outputs <- get_outputs p bp shots ;;
  do bf <- getattr best_fval ;;
  do bp' <- getattr best_params ;;
  ret (result, outputs, bf, bp').

Definition run (p shots : nat) (optimizer : Optimizer)
    (initial_parameters : option params) (rnd : nat -> Q)
  : M (OptResult * counts * Q * option params) :=
  do _ <- reset_best ;;
  run_optimize p shots optimizer initial_parameters rnd.

(** A caller making the executor calls [ps] one after the other and
    collecting the returned objective values. *)
Fixpoint call_sequence (execfn : params -> M Q) (ps : list params)
  : M (list Q) :=
  match ps with
  | [] => ret []
  | paramlist :: rest =>
      do v <- execfn paramlist ;;
      do vs <- call_sequence execfn rest ;;
      ret (v :: vs)
  end.

End Driver.

Arguments mkWorld {BState} self backend.
Arguments self {BState} w.
Arguments backend {BState} w.
Arguments ret {BState A} a.
Arguments mbind {BState A B} m k.
Arguments lift {BState A} r.
Arguments get_self {BState}.
Arguments set_best_fval {BState} v.
Arguments set_best_params {BState} v.
Arguments getattr {BState A} field.
Arguments call_backend {TCirc BState} backend_run tcirc ps shots.
Arguments build_circuit {Ansatz BState} QAOAAnsatz p.
Arguments execute {TCirc BState} backend_run tcirc shots paramlist.
Arguments get_executor {Ansatz TCirc BState} QAOAAnsatz transpile backend_run
  p shots.
Arguments get_outputs {Ansatz TCirc BState} QAOAAnsatz transpile backend_run
  p parameters shots.
Arguments reset_best {BState}.
Arguments run_optimize {Ansatz TCirc BState OptResult} QAOAAnsatz transpile
  backend_run p shots optimizer initial_parameters rnd.
Arguments run {Ansatz TCirc BState OptResult} QAOAAnsatz transpile
  backend_run p shots optimizer initial_parameters rnd.
Arguments call_sequence {BState} execfn ps.

(* ================================================================== *)
(** ** Auxiliary definitions used to state and illustrate the properties *)

(** The driver after the two assignments of a strict improvement. *)
Definition record_best (s : QAOAbf) (v : Q) (ps : params) : QAOAbf :=
  mkQAOAbf (cost_op s) (obj_value_fn s) (init_circuit s)
           (Some v) (Some (Some ps)).

(** What [cf] does with the output of [simulate]. *)
Definition verdict (r : result (list bool)) : result Z :=
  try output <- r ;;
  try out0 <- py_index output 0 ;;
  Ok (if out0 : bool then 0%Z else 1%Z).

(** The sum of the counts over the items. *)
Definition total_count (cts : counts) : Z :=
  fold_right (fun it acc => (snd it + acc)%Z) 0%Z cts.

(** A 2-qubit oracle for the one-variable formula [x1], used in examples;
    its body is a placeholder for the synthesized gates. *)
Definition example_oracle : QuantumCircuit := mkCircuit 2 [XGate 1].

Definition example_formula_x1 : Formula :=
  mkFormula ["x1"] (Ok example_oracle)
    (fun inputs => match inputs with
                   | [b] => Ok [b]
                   | _ => Raise (Exn "RuntimeError")
                   end).

(** A two-variable formula ([x1 and x2]) whose [simulate] accepts an input
    vector of any length. *)
Definition example_formula_and : Formula :=
  mkFormula ["x1"; "x2"] (Ok (mkCircuit 3 []))
    (fun inputs => Ok [forallb (fun b => b) inputs]).



(** The objective of the examples: 1 on "00", 0 on every other bitstring. *)
Definition example_objective (b : string) : Q :=
  if String.eqb b "00" then 1 else 0.

(** The closure of [get_objective_fn] used as the driver's objective: its
    integer result is taken as a number. *)
Definition as_objective (cf : string -> result Z) : string -> result Q :=
  fun bitvec => try v <- cf bitvec ;; Ok (inject_Z v).

(** A driver that scores with [fn] and has not run yet. *)
Definition example_driver (fn : string -> result Q) : QAOAbf :=
  init example_oracle fn None.

(** A backend that replays a queue of prepared measurement results, one per
    execution, and fails once the queue is empty. *)
Definition replay_backend_run (tcirc : unit) (ps : option params)
    (shots : nat) (queue : list counts) : result counts * list counts :=
  match queue with
  | cts :: rest => (Ok cts, rest)
  | [] => (Raise (Exn "BackendExecutionError"), [])
  end.

(** An ansatz library and a transpiler that always succeed; the ansatz and
    the transpiled circuit carry no information in the examples. *)
Definition example_ansatz (cost_operator : QuantumCircuit) (reps : nat)
  : result unit := Ok tt.

Definition example_transpile (circuit : unit) : result unit := Ok tt.

(** Three executions: the only shot on "00"; one of two; two of four. *)
Definition example_world : World (list counts) :=
  mkWorld (example_driver (fun b => Ok (example_objective b)))
          [[("00", 1%Z)];
           [("00", 1%Z); ("11", 1%Z)];
           [("11", 2%Z); ("00", 2%Z)]].

Definition example_calls : list params :=
  [[PFloat 0; PFloat 0]; [PFloat 1; PFloat 0]; [PFloat 1; PFloat 1]].

(** A driver whose objective is 2000 on every bitstring, with one prepared
    execution. *)
Definition large_objective_world : World (list counts) :=
  mkWorld (example_driver (fun _ => Ok 2000)) [[("0", 1%Z)]].

(** An optimizer that evaluates the starting point once and reports the
    value. *)
Definition single_shot_optimizer : Optimizer (list counts) Q :=
  fun execfn x0 => execfn x0.

(* ================================================================== *)
(** ** Formula input generation: [lit_to_code], [clause_to_code],
    [get_classical_fn] *)

(** Python's [str] on an integer: decimal digits, with a leading minus
    sign for a negative number. *)
Definition py_str (z : Z) : string :=
  DecimalString.NilZero.string_of_int (Z.to_int z).

(** Python's [l[i]] for any integer index: a negative index counts from the
    end, an index outside the list raises. *)
Definition py_getitem {A} (l : list A) (i : Z) : result A :=
  let len := Z.of_nat (List.length l) in
  let k := if (i <? 0)%Z then (i + len)%Z else i in
  if (k <? 0)%Z then Raise IndexError
  else py_index l (Z.to_nat k).

(** Python's [s[:stop]]: a negative [stop] counts from the end, and the
    bound is clamped to the sequence. *)
Definition py_slice_to {A} (stop : Z) (s : list A) : list A :=
  let len := Z.of_nat (List.length s) in
  let hi := if (stop <? 0)%Z then Z.max (stop + len) 0 else Z.min stop len in
  firstn (Z.to_nat hi) s.

(** numpy's [np.abs] on a Python integer.  An integer that fits in 64 bits
    is taken as an [int64], whose absolute value wraps around at the
    smallest value: [np.abs(-2**63)] is [-2**63].  Every other integer has
    its exact absolute value. *)
Definition np_abs (z : Z) : Z :=
  if (z =? - 2 ^ 63)%Z then z else Z.abs z.

Definition lit_to_code (lit : Z) : string :=
  if (lit <? 0)%Z then ("not x" ++ py_str (np_abs lit))%string
  else ("x" ++ py_str (np_abs lit))%string.

Definition clause_to_code (clause : list Z) : result string :=
  try first <- py_getitem clause 0 ;;
  let cl_code := lit_to_code first in
  let cl_code :=
    fold_left (fun cl_code lit => (cl_code ++ " or " ++ lit_to_code lit)%string)
              (py_slice_from 1 clause) cl_code in
  Ok ("(" ++ cl_code ++ ")")%string.

(** The one-character string of a line feed, Python's ['\n']. *)
Definition newline : string := String "010"%char EmptyString.

(** [get_classical_fn(pysat_formula, n)].  [ClassicalFunction] is the
    library constructor that compiles the generated source text; it is the
    only step that is not string building. *)
Definition get_classical_fn (ClassicalFunction : string -> result Formula)
    (pysat_formula : list (list Z)) (n : Z) : result Formula :=
  let symbols := map (fun i => ("x" ++ py_str (i + 1))%string) (py_range 0 n) in
  let head :=
    String.concat ""
      (map (fun symb => (symb ++ ": Int1,")%string) (py_slice_to (-1) symbols)) in
  try last <- py_getitem symbols (-1) ;;
  let sig :=
    ("def boolfunc(" ++ head ++ (last ++ ": Int1") ++ ") -> Int1:")%string in
  try clause0 <- py_getitem pysat_formula 0 ;;
  try body <- clause_to_code clause0 ;;
  try body <-
    for_each (fun body clause =>
                try code <- clause_to_code clause ;;
                Ok (body ++ " and " ++ code)%string)
             (py_slice_from 1 pysat_formula) body ;;
  let body := ("    return " ++ body)%string in
  ClassicalFunction (sig ++ newline ++ body)%string.

(** Closed forms of the generated text: a clause in parentheses with its
    literals joined by [" or "]; the signature with the parameters
    [x1 .. xn], each annotated [Int1], joined by commas. *)
Definition clause_text (clause : list Z) : string :=
  ("(" ++ String.concat " or " (map lit_to_code clause) ++ ")")%string.

Definition signature_text (n : nat) : string :=
  ("def boolfunc("
   ++ String.concat ","
        (map (fun i => ("x" ++ py_str (Z.of_nat i) ++ ": Int1")%string)
             (seq 1 n))
   ++ ") -> Int1:")%string.

(** A compiler stand-in for the examples: it accepts every source text and
    returns the formula [x1]. *)
Definition example_compiler (source : string) : result Formula :=
  Ok example_formula_x1.

(** The best-result state as [run] and the executor keep it: either the
    reset values, or a recorded value below the reset value together with
    the parameter vector that produced it. *)
Definition best_state_consistent (s : QAOAbf) : Prop :=
  (best_fval s = Some initial_best_fval /\ best_params s = Some None)
  \/ (exists v ps, best_fval s = Some v /\ v < initial_best_fval
                   /\ best_params s = Some (Some ps)).


(** Every count multiplied by [m]. *)
Definition scale_counts (m : Z) (cts : counts) : counts :=
  map (fun it => (fst it, (m * snd it)%Z)) cts.

(* ================================================================== *)
(** ** [obj_fn] with Python's number arithmetic

    [obj_fn] above treats the mean as an exact number, which is all the
    driver needs: it only compares and stores the value.  What the value
    itself is depends on Python's arithmetic: integers are exact and
    unbounded, [float(...)] of an integer is the nearest double (ties to
    even) or [OverflowError], and [/] is IEEE division.  This module
    follows lines 42-49 with that arithmetic.  A double is a [spec_float]
    of the Standard Library at precision 53 and maximal exponent 1024. *)

Definition OverflowError : exn := Exn "OverflowError".

Module Floating.

(** A Python number: an [int] or a [float]. *)
Inductive pynum : Type :=
| PyInt (z : Z)
| PyFloat (f : spec_float).

(** The double nearest to the integer [z] (ties to even); an infinity when
    [z] rounds out of the range of doubles. *)
Definition double_of_int (z : Z) : spec_float :=
  binary_normalize 53 1024 z 0 false.

(** [float(z)] for an integer [z]. *)
Definition float_of_int (z : Z) : result spec_float :=
  match double_of_int z with
  | S754_infinity _ => Raise OverflowError
  | f => Ok f
  end.

(** [float(x)] *)
Definition float (x : pynum) : result spec_float :=
  match x with
  | PyInt z => float_of_int z
  | PyFloat f => Ok f
  end.

(** [x * y]: exact on two integers; otherwise both operands become doubles
    and the product is rounded. *)
Definition mul (x y : pynum) : result pynum :=
  match x, y with
  | PyInt a, PyInt b => Ok (PyInt (a * b))
  | _, _ =>
      try f <- float x ;; try g <- float y ;; Ok (PyFloat (SFmul 53 1024 f g))
  end.

(** [x + y] *)
Definition add (x y : pynum) : result pynum :=
  match x, y with
  | PyInt a, PyInt b => Ok (PyInt (a + b))
  | _, _ =>
      try f <- float x ;; try g <- float y ;; Ok (PyFloat (SFadd 53 1024 f g))
  end.

(** [a / b] on two floats: a zero divisor raises, every other case is the
    IEEE quotient. *)
Definition div (a b : spec_float) : result spec_float :=
  match b with
  | S754_zero _ => Raise ZeroDivisionError
  | _ => Ok (SFdiv 53 1024 a b)
  end.

(** One iteration of the loop in [obj_fn]. *)
Definition obj_fn_step (obj_value_fn : string -> result pynum)
    (acc : pynum * Z) (item : string * Z) : result (pynum * Z) :=
  let '(sum_obj, num_entries) := acc in
  let '(bitvec, count) := item in
  try obj <- obj_value_fn bitvec ;;
  try weighted <- mul obj (PyInt count) ;;
  try sum_obj <- add sum_obj weighted ;;
  Ok (sum_obj, (num_entries + count)%Z).

(** [obj_fn], for the objective function [self.obj_value_fn]. *)
Definition obj_fn (obj_value_fn : string -> result pynum) (cts : counts)
  : result spec_float :=
  try acc <- for_each (obj_fn_step obj_value_fn) cts (PyInt 0, 0%Z) ;;
  let '(sum_obj, num_entries) := acc in
  try a <- float sum_obj ;;
  try b <- float (PyInt num_entries) ;;
  div a b.


End Floating.

(** The sum of [f bitstring * count] over the items, for an integer-valued
    objective. *)
Definition weighted_sum_int (f : string -> Z) (cts : counts) : Z :=
  fold_right (fun it acc => (f (fst it) * snd it + acc)%Z) 0%Z cts.

(** The closure of [get_objective_fn] as the objective of [obj_fn]: its
    results are Python integers. *)
Definition int_objective (cf : string -> result Z)
  : string -> result Floating.pynum :=
  fun bitvec => try v <- cf bitvec ;; Ok (Floating.PyInt v).

(** The doubles written [0.1], [0.2], [0.3] and [0.5] in Python. *)
Definition double_0_1 : spec_float := S754_finite false 7205759403792794 (-56).
Definition double_0_2 : spec_float := S754_finite false 7205759403792794 (-55).
Definition double_0_3 : spec_float := S754_finite false 5404319552844595 (-54).

(** An objective with the float values 0.1, 0.2 and 0.3. *)
Definition float_objective (b : string) : result Floating.pynum :=
  if String.eqb b "a" then Ok (Floating.PyFloat double_0_1)
  else if String.eqb b "b" then Ok (Floating.PyFloat double_0_2)
  else Ok (Floating.PyFloat double_0_3).

(** The objective of the examples as Python integers: 1 on "00", 0 on
    every other bitstring. *)
Definition example_int_objective (b : string) : Z :=
  if String.eqb b "00" then 1%Z else 0%Z.

(* ================================================================== *)
(** * Properties *)

(** ** Circuits *)

Lemma py_range_from_zero (n : nat) :
  py_range 0 (Z.of_nat n) = map Z.of_nat (seq 0 n).
Proof.
  unfold py_range. rewrite Z.sub_0_r, Nat2Z.id.
  apply map_ext. intro i. reflexivity.
Qed.

Lemma qubit_arg_in_range (c : QuantumCircuit) (i : nat) :
  (i < num_qubits c)%nat -> qubit_arg c (Z.of_nat i) = Ok i.
Proof.
  intro Hi. unfold qubit_arg.
  replace (0 <=? Z.of_nat i)%Z with true by (symmetry; apply Z.leb_le; lia).
  replace (Z.of_nat i <? Z.of_nat (num_qubits c))%Z with true
    by (symmetry; apply Z.ltb_lt; lia).
  simpl. now rewrite Nat2Z.id.
Qed.

Lemma qubit_arg_last (c : QuantumCircuit) :
  (1 <= num_qubits c)%nat ->
  qubit_arg c (Z.of_nat (num_qubits c) - 1) = Ok (num_qubits c - 1)%nat.
Proof.
  intro Hn.
  replace (Z.of_nat (num_qubits c) - 1)%Z
    with (Z.of_nat (num_qubits c - 1)) by lia.
  apply qubit_arg_in_range. lia.
Qed.

Lemma map_result_qubit_args (c : QuantumCircuit) (k a : nat) :
  (a + k <= num_qubits c)%nat ->
  map_result (qubit_arg c) (map Z.of_nat (seq a k)) = Ok (seq a k).
Proof.
  revert a. induction k as [|k IH]; intros a Hle; simpl.
  - reflexivity.
  - rewrite qubit_arg_in_range by lia. simpl.
    rewrite IH by lia. reflexivity.
Qed.

Lemma existsb_eqb_seq (a b k : nat) :
  (a < b)%nat -> existsb (Nat.eqb a) (seq b k) = false.
Proof.
  revert b. induction k as [|k IH]; intros b Hlt; simpl.
  - reflexivity.
  - rewrite IH by lia.
    replace (a =? b)%nat with false by (symmetry; apply Nat.eqb_neq; lia).
    reflexivity.
Qed.

Lemma has_dup_seq (a k : nat) : has_dup (seq a k) = false.
Proof.
  revert a. induction k as [|k IH]; intro a; simpl.
  - reflexivity.
  - rewrite existsb_eqb_seq by lia. now rewrite IH.
Qed.

(** Appending a circuit on [n] qubits across all the qubits of an [n]-qubit
    circuit succeeds and records it as one instruction. *)
Lemma append_all_qubits (n : nat) (d : list instruction) (sub : QuantumCircuit) :
  num_qubits sub = n ->
  append (mkCircuit n d) sub (py_range 0 (Z.of_nat n))
  = Ok (mkCircuit n (d ++ [Composite n (data sub) (seq 0 n)])).
Proof.
  intro Hq. unfold append.
  rewrite py_range_from_zero, map_result_qubit_args by (simpl; lia).
  cbn [rbind]. rewrite length_seq, Hq, Nat.eqb_refl, has_dup_seq.
  reflexivity.
Qed.

Lemma x_last (n : nat) (d : list instruction) :
  (1 <= n)%nat ->
  x (mkCircuit n d) (Z.of_nat n - 1) = Ok (mkCircuit n (d ++ [XGate (n - 1)])).
Proof.
  intro Hn. unfold x.
  pose proof (qubit_arg_last (mkCircuit n d) Hn) as Hq.
  cbn [num_qubits] in Hq. rewrite Hq. reflexivity.
Qed.

Lemma p_last (n : nat) (d : list instruction) (theta : pexpr) :
  (1 <= n)%nat ->
  p (mkCircuit n d) theta (Z.of_nat n - 1)
  = Ok (mkCircuit n (d ++ [PhaseGate theta (n - 1)])).
Proof.
  intro Hn. unfold p.
  pose proof (qubit_arg_last (mkCircuit n d) Hn) as Hq.
  cbn [num_qubits] in Hq. rewrite Hq. reflexivity.
Qed.

(** The loop of [standard_mixer], started on any circuit wide enough. *)
Lemma rx_loop (theta : pexpr) (k a : nat) (c : QuantumCircuit) :
  (a + k <= num_qubits c)%nat ->
  for_each (fun circ i => rx circ theta i) (map Z.of_nat (seq a k)) c
  = Ok (mkCircuit (num_qubits c) (data c ++ map (RXGate theta) (seq a k))).
Proof.
  revert a c. induction k as [|k IH]; intros a c Hle; simpl.
  - rewrite app_nil_r. now destruct c.
  - unfold rx at 1. rewrite qubit_arg_in_range by lia. simpl.
    rewrite IH by (simpl; lia). simpl.
    now rewrite <- app_assoc.
Qed.

(** C9.  For every n >= 0, [standard_mixer n] returns a circuit on exactly n
    qubits whose instructions are exactly one [rx] per qubit 0..n-1, in that
    order and nothing else; every gate carries the same angle expression,
    whose only free parameter is beta and whose value is 2*beta under every
    binding; for n = 0 the circuit has no gates. *)
Theorem standard_mixer_spec (n : Z) :
  (0 <= n)%Z ->
  let angle := PMul (PInt 2) (PParam beta_name) in
  standard_mixer n
  = Ok (mkCircuit (Z.to_nat n) (map (RXGate angle) (seq 0 (Z.to_nat n))))
  /\ (forall env, pexpr_eval env angle = (2 * env beta_name)%R)
  /\ pexpr_params angle = [beta_name]
  /\ (n = 0%Z -> standard_mixer n = Ok (mkCircuit 0 [])).
Proof.
  intros Hn angle.
  assert (Hmix : standard_mixer n
                 = Ok (mkCircuit (Z.to_nat n)
                         (map (RXGate angle) (seq 0 (Z.to_nat n))))).
  { unfold standard_mixer, new_circuit.
    replace (n <? 0)%Z with false by (symmetry; apply Z.ltb_ge; lia).
    simpl rbind.
    rewrite <- (Z2Nat.id n) at 1 by lia.
    rewrite py_range_from_zero, rx_loop by (simpl; lia).
    reflexivity. }
  split; [exact Hmix|].
  split; [intro env; simpl; lra|].
  split; [reflexivity|].
  intros Hz. rewrite Hmix, Hz. reflexivity.
Qed.

Lemma standard_mixer_spec_witness :
  (0 <= 3)%Z /\
  standard_mixer 3
  = Ok (mkCircuit 3 [RXGate (PMul (PInt 2) (PParam beta_name)) 0;
                     RXGate (PMul (PInt 2) (PParam beta_name)) 1;
                     RXGate (PMul (PInt 2) (PParam beta_name)) 2]).
Proof.
  split; [lia | exact (proj1 (standard_mixer_spec 3 ltac:(lia)))].
Defined.

(** C1.  When [synth()] yields an oracle circuit B on n qubits (n >= 1, so
    that the result qubit n-1 exists), [get_cost_circuit] returns a circuit
    on exactly n qubits whose instruction sequence is: X on qubit n-1; B,
    unmodified, placed on qubits 0..n-1; a phase gate on qubit n-1 whose
    angle is -pi; B again on qubits 0..n-1; X on qubit n-1. *)
Theorem get_cost_circuit_spec (f : Formula) (B : QuantumCircuit) (n : nat) :
  synth f = Ok B ->
  num_qubits B = n ->
  (1 <= n)%nat ->
  exists theta,
    get_cost_circuit f
    = Ok (mkCircuit n
            [XGate (n - 1);
             Composite n (data B) (seq 0 n);
             PhaseGate theta (n - 1);
             Composite n (data B) (seq 0 n);
             XGate (n - 1)])
    /\ forall env, pexpr_eval env theta = (- PI)%R.
Proof.
  intros Hsynth HB Hn. exists (PMul (PInt (-1)) PPi). split.
  - unfold get_cost_circuit. rewrite Hsynth. cbn [rbind].
    unfold new_circuit.
    replace (Z.of_nat (num_qubits B) <? 0)%Z with false
      by (symmetry; apply Z.ltb_ge; lia).
    cbn [rbind]. rewrite Nat2Z.id, HB.
    rewrite x_last by exact Hn. cbn [rbind num_qubits].
    rewrite append_all_qubits by exact HB. cbn [rbind num_qubits].
    rewrite p_last by exact Hn. cbn [rbind num_qubits].
    rewrite append_all_qubits by exact HB. cbn [rbind num_qubits].
    rewrite x_last by exact Hn. reflexivity.
  - intro env. simpl. lra.
Qed.

Lemma get_cost_circuit_spec_witness :
  synth example_formula_x1 = Ok example_oracle /\
  num_qubits example_oracle = 2%nat /\
  (1 <= 2)%nat /\
  exists theta,
    get_cost_circuit example_formula_x1
    = Ok (mkCircuit 2
            [XGate 1; Composite 2 [XGate 1] [0%nat; 1%nat]; PhaseGate theta 1;
             Composite 2 [XGate 1] [0%nat; 1%nat]; XGate 1])
    /\ forall env, pexpr_eval env theta = (- PI)%R.
Proof.
  split; [reflexivity|]. split; [reflexivity|]. split; [lia|].
  apply (get_cost_circuit_spec example_formula_x1 example_oracle 2);
    [reflexivity | reflexivity | lia].
Defined.

(** Remark: an oracle without any qubit has no result qubit to flip, and the
    construction fails on its first gate. *)
Lemma get_cost_circuit_no_qubit (f : Formula) (B : QuantumCircuit) :
  synth f = Ok B -> num_qubits B = 0%nat ->
  get_cost_circuit f = Raise CircuitError.
Proof.
  intros Hsynth HB. unfold get_cost_circuit.
  rewrite Hsynth. cbn [rbind]. rewrite HB. reflexivity.
Qed.

(** ** The objective function *)

Lemma py_slice_from_last {A} (k : nat) (anc inp : list A) :
  List.length inp = k -> (1 <= k)%nat ->
  py_slice_from (- Z.of_nat k) (anc ++ inp) = inp.
Proof.
  intros Hlen Hk. unfold py_slice_from.
  replace (- Z.of_nat k <? 0)%Z with true by (symmetry; apply Z.ltb_lt; lia).
  rewrite length_app, Hlen.
  replace (Z.to_nat (Z.max (- Z.of_nat k + Z.of_nat (List.length anc + k)) 0))
    with (List.length anc) by lia.
  rewrite skipn_app, skipn_all, Nat.sub_diag. reflexivity.
Qed.

Lemma py_slice_from_short {A} (k : nat) (s : list A) :
  (List.length s < k)%nat -> py_slice_from (- Z.of_nat k) s = s.
Proof.
  intro Hlt. unfold py_slice_from.
  replace (- Z.of_nat k <? 0)%Z with true by (symmetry; apply Z.ltb_lt; lia).
  replace (Z.to_nat (Z.max (- Z.of_nat k + Z.of_nat (List.length s)) 0))
    with 0%nat by lia.
  reflexivity.
Qed.

(** Remark: [s[-0:]] is [s[0:]], the whole sequence. *)
Lemma py_slice_from_minus_zero {A} (s : list A) :
  py_slice_from (- Z.of_nat 0) s = s.
Proof.
  unfold py_slice_from. simpl. rewrite Z.min_l by lia. reflexivity.
Qed.

Lemma get_objective_fn_unfold (f : Formula) (bitvec : string) :
  get_objective_fn f bitvec
  = verdict (simulate f (bits_of_reversed
               (py_slice_from (- Z.of_nat (List.length (args f)))
                  (list_ascii_of_string bitvec)))).
Proof. reflexivity. Qed.


(** X19.  For a formula with k >= 1 input variables and a measured
    bitstring that ends with the k characters [inp] (after any ancilla
    characters [anc]): the closure returns 0 when [simulate], applied to the
    reversal of [inp] with each character mapped to true exactly when it is
    '1', yields a true first output, and 1 when that output is false; and any
    other bitstring ending with the same k characters gets the same
    result. *)
Theorem get_objective_fn_spec (f : Formula) (bitvec : string)
    (anc inp : list ascii) :
  list_ascii_of_string bitvec = anc ++ inp ->
  List.length inp = List.length (args f) ->
  (1 <= List.length (args f))%nat ->
  (forall out rest,
      simulate f (map (fun c => Ascii.eqb c "1"%char) (rev inp))
      = Ok (out :: rest) ->
      get_objective_fn f bitvec = Ok (if out then 0%Z else 1%Z))
  /\ (forall bitvec' anc',
        list_ascii_of_string bitvec' = anc' ++ inp ->
        get_objective_fn f bitvec' = get_objective_fn f bitvec).
Proof.
  intros Hsplit Hlen Hk. split.
  - intros out rest Hsim.
    rewrite get_objective_fn_unfold, Hsplit, py_slice_from_last by assumption.
    unfold bits_of_reversed. rewrite Hsim. reflexivity.
  - intros bitvec' anc' Hsplit'.
    rewrite !get_objective_fn_unfold, Hsplit, Hsplit'.
    rewrite !py_slice_from_last by assumption. reflexivity.
Qed.

Lemma get_objective_fn_spec_witness :
  get_objective_fn example_formula_x1 "01" = Ok 0%Z
  /\ get_objective_fn example_formula_x1 "11" = get_objective_fn example_formula_x1 "01".
Proof.
  pose proof (get_objective_fn_spec example_formula_x1 "01"
                ["0"%char] ["1"%char] eq_refl eq_refl (le_n 1)) as [Hval Hanc].
  split.
  - exact (Hval true [] eq_refl).
  - exact (Hanc "11" ["1"%char] eq_refl).
Defined.

(** Remark: with no input variable the slice [bitvec[-0:]] is the whole
    bitstring, so every measured character reaches [simulate]. *)
Lemma get_objective_fn_no_inputs (f : Formula) (bitvec : string) :
  args f = [] ->
  get_objective_fn f bitvec
  = verdict (simulate f (bits_of_reversed (list_ascii_of_string bitvec))).
Proof.
  intro Hargs. rewrite get_objective_fn_unfold, Hargs.
  change (List.length (@nil string)) with 0%nat.
  now rewrite py_slice_from_minus_zero.
Qed.

(** C6, as stated, fails: on a bitstring shorter than the number of input
    variables the closure makes no check of its own.  With a [simulate] that
    accepts any input length it returns a value computed from the shorter
    input vector; with a [simulate] that refuses the length, the exception
    is the one [simulate] raised. *)
Lemma short_bitstring_not_rejected :
  (String.length "1" < List.length (args example_formula_and))%nat
  /\ get_objective_fn example_formula_and "1" = Ok 0%Z
  /\ get_objective_fn example_formula_and "1"
     <> Raise (Exn "MalformedMeasurementError")
  /\ (String.length "" < List.length (args example_formula_x1))%nat
  /\ get_objective_fn example_formula_x1 "" = Raise (Exn "RuntimeError")
  /\ get_objective_fn example_formula_x1 ""
     <> Raise (Exn "MalformedMeasurementError").
Proof.
  split; [simpl; lia|]. split; [reflexivity|]. split; [discriminate|].
  split; [simpl; lia|]. split; [reflexivity|]. discriminate.
Qed.

(** C6, amended.  On a bitstring shorter than the number of input variables
    the closure makes no length check: it hands the reversal of the whole
    bitstring to [simulate] and returns 0 or 1 from the first output; the
    only exceptions are those [simulate] raises and the [IndexError] of an
    empty output. *)
Theorem get_objective_fn_short (f : Formula) (bitvec : string) :
  (String.length bitvec < List.length (args f))%nat ->
  let inputs :=
    map (fun c => Ascii.eqb c "1"%char) (rev (list_ascii_of_string bitvec)) in
  (forall out rest, simulate f inputs = Ok (out :: rest) ->
     get_objective_fn f bitvec = Ok (if out then 0%Z else 1%Z))
  /\ (forall e, get_objective_fn f bitvec = Raise e ->
        simulate f inputs = Raise e
        \/ (simulate f inputs = Ok [] /\ e = IndexError)).
Proof.
  intros Hlt inputs.
  assert (Hcf : get_objective_fn f bitvec = verdict (simulate f inputs)).
  { rewrite get_objective_fn_unfold, py_slice_from_short; [reflexivity|].
    clear -Hlt. revert Hlt. generalize (List.length (args f)). intros n.
    assert (Hl : List.length (list_ascii_of_string bitvec) = String.length bitvec).
    { induction bitvec; simpl; congruence. }
    rewrite Hl. trivial. }
  rewrite Hcf. split.
  - intros out rest Hsim. rewrite Hsim. reflexivity.
  - intros e. destruct (simulate f inputs) as [[|out rest]|e']; simpl.
    + intro H. right. split; [reflexivity | congruence].
    + destruct out; discriminate.
    + intro H. left. congruence.
Qed.

Lemma get_objective_fn_short_witness :
  (String.length "1" < List.length (args example_formula_and))%nat
  /\ get_objective_fn example_formula_and "1" = Ok 0%Z.
Proof.
  split; [simpl; lia|].
  exact (proj1 (get_objective_fn_short example_formula_and "1"
                  ltac:(simpl; lia)) true [] eq_refl).
Defined.

(** ** The mean objective [obj_fn] *)

Lemma inject_Z_eq_0 (n : Z) : inject_Z n == 0 <-> n = 0%Z.
Proof. unfold Qeq. simpl. lia. Qed.



(* ================================================================== *)
(** ** [obj_fn] in Python's arithmetic *)

Lemma floating_obj_fn_loop (obj_value_fn : string -> result Floating.pynum)
    (f : string -> Z) (cts : counts) :
  Forall (fun it => obj_value_fn (fst it) = Ok (Floating.PyInt (f (fst it)))) cts ->
  forall s n,
    for_each (Floating.obj_fn_step obj_value_fn) cts (Floating.PyInt s, n)
    = Ok (Floating.PyInt (s + weighted_sum_int f cts)%Z,
          (n + total_count cts)%Z).
Proof.
  induction 1 as [|[b c] rest Hb _ IH]; intros s n; cbn [for_each].
  - cbn. now rewrite !Z.add_0_r.
  - cbn [Floating.obj_fn_step fst] in *. rewrite Hb. cbn [rbind Floating.mul Floating.add].
    rewrite IH. cbn [weighted_sum_int total_count fold_right fst snd].
    fold (weighted_sum_int f rest). fold (total_count rest).
    do 2 f_equal; [f_equal|]; lia.
Qed.

Lemma floating_obj_fn_closed_form
    (obj_value_fn : string -> result Floating.pynum)
    (f : string -> Z) (cts : counts) :
  Forall (fun it => obj_value_fn (fst it) = Ok (Floating.PyInt (f (fst it)))) cts ->
  Floating.obj_fn obj_value_fn cts
  = (try a <- Floating.float_of_int (weighted_sum_int f cts) ;;
     try b <- Floating.float_of_int (total_count cts) ;;
     Floating.div a b).
Proof.
  intros H. unfold Floating.obj_fn.
  rewrite (floating_obj_fn_loop obj_value_fn f cts H). reflexivity.
Qed.

(** *** Doubles of small integers, and rounding *)











(** *** Doubles of large integers *)




















(** C5, as stated, fails: on the empty mapping the division itself raises;
    there is no other exception. *)
Lemma empty_counts_division_by_zero :
  obj_fn (example_driver (fun b => Ok (example_objective b))) []
  = Raise ZeroDivisionError
  /\ obj_fn (example_driver (fun b => Ok (example_objective b))) []
     <> Raise (Exn "NoMeasurementsError").
Proof. split; [reflexivity | discriminate]. Qed.

(** C5, amended.  On an empty counts mapping [obj_fn] raises
    [ZeroDivisionError], whatever the objective function. *)
Theorem obj_fn_empty (self : QAOAbf) :
  obj_fn self [] = Raise ZeroDivisionError.
Proof. reflexivity. Qed.

(** The two components together: with the objective of the formula [x1],
    three shots on "01" (satisfying) and one on "00" score 1/4. *)
Lemma obj_fn_of_formula_x1 :
  obj_fn (example_driver (as_objective (get_objective_fn example_formula_x1)))
         [("01", 3%Z); ("00", 1%Z)]
  = Ok (1 # 4).
Proof. reflexivity. Qed.

(** ** The executor and [run] *)

Lemma Qltb_lt (a b : Q) : Qltb a b = true <-> a < b.
Proof.
  unfold Qltb. rewrite negb_true_iff. split.
  - intro H. apply Qnot_le_lt. intro Hle.
    apply Qle_bool_iff in Hle. congruence.
  - intro H. destruct (Qle_bool b a) eqn:E; [|reflexivity].
    apply Qle_bool_iff in E. exfalso. exact (Qlt_not_le _ _ H E).
Qed.

Lemma Qltb_ge (a b : Q) : Qltb a b = false <-> b <= a.
Proof.
  unfold Qltb. rewrite negb_false_iff. apply Qle_bool_iff.
Qed.

Section DriverProperties.

Context {Ansatz TCirc BState OptResult : Type}.
Variable QAOAAnsatz : QuantumCircuit -> nat -> result Ansatz.
Variable transpile : Ansatz -> result TCirc.
Variable backend_run :
  TCirc -> option params -> nat -> BState -> result counts * BState.

(** One call of the executor, path by path. *)
Lemma execute_unfold (tcirc : TCirc) (shots : nat) (ps : params)
    (w : World BState) :
  execute backend_run tcirc shots ps w
  = match backend_run tcirc (Some ps) shots (backend w) with
    | (Raise e, b') => (Raise e, mkWorld (self w) b')
    | (Ok cts, b') =>
        match obj_fn (self w) cts with
        | Raise e => (Raise e, mkWorld (self w) b')
        | Ok v =>
            match best_fval (self w) with
            | None => (Raise AttributeError, mkWorld (self w) b')
            | Some best =>
                if Qltb v best
                then (Ok v, mkWorld (record_best (self w) v ps) b')
                else (Ok v, mkWorld (self w) b')
            end
        end
    end.
Proof.
  unfold execute, mbind, call_backend, get_self, lift, getattr.
  destruct (backend_run tcirc (Some ps) shots (backend w)) as [[cts|e] b'];
    cbn [self backend]; [|reflexivity].
  destruct (obj_fn (self w) cts) as [v|e]; [|reflexivity].
  destruct (best_fval (self w)) as [best|]; [|reflexivity].
  destruct (Qltb v best); reflexivity.
Qed.

(** A call that returns [v] leaves the best state as the comparison with
    the current best value decides. *)
Lemma execute_returns (tcirc : TCirc) (shots : nat) (ps : params)
    (w w' : World BState) (v : Q) :
  execute backend_run tcirc shots ps w = (Ok v, w') ->
  exists best,
    best_fval (self w) = Some best
    /\ ((v < best /\ best_fval (self w') = Some v
         /\ best_params (self w') = Some (Some ps))
        \/ (best <= v /\ best_fval (self w') = Some best
            /\ best_params (self w') = best_params (self w))).
Proof.
  rewrite execute_unfold.
  destruct (backend_run tcirc (Some ps) shots (backend w)) as [[cts|e] b'];
    [|discriminate].
  destruct (obj_fn (self w) cts) as [v0|e]; [|discriminate].
  destruct (best_fval (self w)) as [best|] eqn:Hbest; [|discriminate].
  destruct (Qltb v0 best) eqn:Hcmp; intro H; inversion H; subst; clear H;
    exists best; (split; [reflexivity|]).
  - left. apply Qltb_lt in Hcmp. now repeat split.
  - right. apply Qltb_ge in Hcmp. cbn [self]. now repeat split.
Qed.

(** [get_executor] changes nothing; when building and transpiling the
    ansatz succeed it returns the closure [execute] for the transpiled
    circuit. *)
Lemma get_executor_returns (p shots : nat) (w w1 : World BState)
    (execfn : params -> M BState Q) :
  get_executor QAOAAnsatz transpile backend_run p shots w = (Ok execfn, w1) ->
  w1 = w /\ exists tcirc, execfn = execute backend_run tcirc shots.
Proof.
  unfold get_executor, build_circuit, mbind, get_self, lift, ret.
  destruct (QAOAAnsatz (cost_op (self w)) p) as [circuit|e]; [|discriminate].
  destruct (transpile circuit) as [tcirc|e]; [|discriminate].
  intro H. inversion H; subst. split; [reflexivity|]. now exists tcirc.
Qed.

(** The frame of one call of [execute]. *)
Lemma execute_call_frame (tcirc : TCirc) (shots : nat) (ps : params)
    (w : World BState) :
  let r := fst (execute backend_run tcirc shots ps w) in
  let w' := snd (execute backend_run tcirc shots ps w) in
  cost_op (self w') = cost_op (self w)
  /\ obj_value_fn (self w') = obj_value_fn (self w)
  /\ init_circuit (self w') = init_circuit (self w)
  /\ ((exists v best,
         r = Ok v /\ best_fval (self w) = Some best /\ v < best
         /\ best_fval (self w') = Some v
         /\ best_params (self w') = Some (Some ps))
      \/ (best_fval (self w') = best_fval (self w)
          /\ best_params (self w') = best_params (self w)
          /\ forall v best,
               r = Ok v -> best_fval (self w) = Some best -> ~ v < best)).
Proof.
  cbv zeta. rewrite execute_unfold.
  destruct (backend_run tcirc (Some ps) shots (backend w)) as [[cts|e] b'].
  2:{ cbn. repeat split; try reflexivity. right. repeat split. discriminate. }
  destruct (obj_fn (self w) cts) as [v|e].
  2:{ cbn. repeat split; try reflexivity. right. repeat split. discriminate. }
  destruct (best_fval (self w)) as [best|] eqn:Hbest.
  2:{ cbn. rewrite Hbest. repeat split; try reflexivity.
      right. repeat split. discriminate. }
  destruct (Qltb v best) eqn:Hcmp; cbn; repeat split; try reflexivity.
  - left. exists v, best. apply Qltb_lt in Hcmp. now repeat split.
  - right. rewrite Hbest. repeat split.
    intros v0 best0 Hv Hb. inversion Hv; inversion Hb; subst.
    apply Qltb_ge in Hcmp. now apply Qle_not_lt.
Qed.

(** C10.  A call of the executor closure returned by [get_executor] never
    changes [cost_op], [obj_value_fn] or [init_circuit].  Either the call
    returned a value strictly smaller than the current [best_fval], and then
    [best_fval] is that value and [best_params] the call's parameter vector;
    or [best_fval] and [best_params] are exactly as before the call, and the
    call did not return a value strictly smaller than the current
    [best_fval]. *)
Theorem execute_frame (p shots : nat) (w0 w1 : World BState)
    (execfn : params -> M BState Q) (ps : params) (w : World BState) :
  get_executor QAOAAnsatz transpile backend_run p shots w0 = (Ok execfn, w1) ->
  let r := fst (execfn ps w) in
  let w' := snd (execfn ps w) in
  cost_op (self w') = cost_op (self w)
  /\ obj_value_fn (self w') = obj_value_fn (self w)
  /\ init_circuit (self w') = init_circuit (self w)
  /\ ((exists v best,
         r = Ok v /\ best_fval (self w) = Some best /\ v < best
         /\ best_fval (self w') = Some v
         /\ best_params (self w') = Some (Some ps))
      \/ (best_fval (self w') = best_fval (self w)
          /\ best_params (self w') = best_params (self w)
          /\ forall v best,
               r = Ok v -> best_fval (self w) = Some best -> ~ v < best)).
Proof.
  intro Hget.
  destruct (get_executor_returns _ _ _ _ _ Hget) as [_ [tcirc ->]].
  apply execute_call_frame.
Qed.

(** The state [run] establishes with its first two statements. *)
Lemma reset_best_state (w : World BState) :
  reset_best w
  = (Ok tt, mkWorld (mkQAOAbf (cost_op (self w)) (obj_value_fn (self w))
                       (init_circuit (self w))
                       (Some initial_best_fval) (Some None))
                    (backend w)).
Proof. reflexivity. Qed.

(** Best-state tracking from any recorded best value [b0]. *)
Lemma call_sequence_tracks (tcirc : TCirc) (shots : nat) (ps : list params) :
  forall (w w' : World BState) (vs : list Q) (b0 : Q),
  best_fval (self w) = Some b0 ->
  call_sequence (execute backend_run tcirc shots) ps w = (Ok vs, w') ->
  List.length vs = List.length ps
  /\ (((forall v, In v vs -> b0 <= v)
       /\ best_fval (self w') = Some b0
       /\ best_params (self w') = best_params (self w))
      \/ (exists i pi vi,
            nth_error ps i = Some pi /\ nth_error vs i = Some vi
            /\ vi < b0
            /\ best_fval (self w') = Some vi
            /\ best_params (self w') = Some (Some pi)
            /\ (forall v, In v vs -> vi <= v)
            /\ (forall j vj, (j < i)%nat -> nth_error vs j = Some vj ->
                             vi < vj))).
Proof.
  induction ps as [|p0 ps IH]; intros w w' vs b0 Hb0 Hrun.
  - cbn in Hrun. inversion Hrun; subst. split; [reflexivity|].
    left. repeat split; [intros v []| exact Hb0].
  - cbn [call_sequence] in Hrun. unfold mbind at 1 in Hrun.
    destruct (execute backend_run tcirc shots p0 w) as [[v|e] w1] eqn:Hcall;
      [|discriminate].
    unfold mbind at 1 in Hrun.
    destruct (call_sequence (execute backend_run tcirc shots) ps w1)
      as [[vs'|e] w2] eqn:Hrest; [|discriminate].
    unfold ret in Hrun. inversion Hrun; subst; clear Hrun.
    destruct (execute_returns _ _ _ _ _ _ Hcall) as [best [Hbest Hupd]].
    rewrite Hb0 in Hbest. inversion Hbest; subst best; clear Hbest.
    destruct Hupd as [[Hlt [Hf1 Hp1]] | [Hge [Hf1 Hp1]]].
    + (* the first call improves on [b0] *)
      destruct (IH w1 w' vs' v Hf1 Hrest) as [Hlen Hcases].
      split; [cbn; now rewrite Hlen|]. right.
      destruct Hcases as [[Hall [Hf Hp]] | [i [pi [vi H]]]].
      * exists 0%nat, p0, v. cbn [nth_error]. rewrite Hp, Hp1.
        repeat split; try assumption; try reflexivity.
        -- intros v' [<-|Hin]; [apply Qle_refl | now apply Hall].
        -- intros j vj Hj. lia.
      * destruct H as [Hpi [Hvi [Hlt' [Hf [Hp [Hmin Hfirst]]]]]].
        exists (S i), pi, vi. cbn [nth_error].
        repeat split; try assumption.
        -- now apply Qlt_trans with v.
        -- intros v' [<-|Hin]; [now apply Qlt_le_weak | now apply Hmin].
        -- intros [|j] vj Hj Hnth; cbn in Hnth.
           ++ now inversion Hnth; subst.
           ++ apply (Hfirst j); [lia | exact Hnth].
    + (* the first call does not improve on [b0] *)
      destruct (IH w1 w' vs' b0 Hf1 Hrest) as [Hlen Hcases].
      split; [cbn; now rewrite Hlen|].
      destruct Hcases as [[Hall [Hf Hp]] | [i [pi [vi H]]]].
      * left. rewrite Hp, Hp1. repeat split; try assumption.
        intros v' [<-|Hin]; [exact Hge | now apply Hall].
      * destruct H as [Hpi [Hvi [Hlt' [Hf [Hp [Hmin Hfirst]]]]]].
        right. exists (S i), pi, vi. cbn [nth_error].
        repeat split; try assumption.
        -- intros v' [<-|Hin];
             [apply Qlt_le_weak; now apply Qlt_le_trans with b0
             | now apply Hmin].
        -- intros [|j] vj Hj Hnth; cbn in Hnth.
           ++ inversion Hnth; subst. now apply Qlt_le_trans with b0.
           ++ apply (Hfirst j); [lia | exact Hnth].
Qed.

(** C4, amended.  In [run] the executor is created right after the reset.
    For every sequence of calls to that executor that return the values
    [vs]: if no returned value is below the reset value 1000 (in particular
    when there is no call), [best_fval] is still 1000 and [best_params] is
    still [None]; if some returned value is below 1000, [best_fval] is a
    returned value that is the minimum of all returned values, and
    [best_params] is the parameter vector of the earliest call that returned
    it. *)
Theorem best_after_calls (p shots : nat) (execfn : params -> M BState Q)
    (ps : list params) (w w1 w' : World BState) (vs : list Q) :
  get_executor QAOAAnsatz transpile backend_run p shots (snd (reset_best w))
  = (Ok execfn, w1) ->
  call_sequence execfn ps w1 = (Ok vs, w') ->
  List.length vs = List.length ps
  /\ ((forall v, In v vs -> initial_best_fval <= v) ->
      best_fval (self w') = Some initial_best_fval
      /\ best_params (self w') = Some None)
  /\ ((exists v, In v vs /\ v < initial_best_fval) ->
      exists i pi vi,
        nth_error ps i = Some pi /\ nth_error vs i = Some vi
        /\ best_fval (self w') = Some vi
        /\ best_params (self w') = Some (Some pi)
        /\ (forall v, In v vs -> vi <= v)
        /\ (forall j vj, (j < i)%nat -> nth_error vs j = Some vj -> vi < vj)).
Proof.
  intros Hget Hrun.
  destruct (get_executor_returns _ _ _ _ _ Hget) as [-> [tcirc ->]].
  rewrite reset_best_state in Hrun. cbn [snd] in Hrun.
  apply call_sequence_tracks with (b0 := initial_best_fval) in Hrun;
    [|reflexivity].
  destruct Hrun as [Hlen Hcases].
  cbn [self best_params] in Hcases.
  split; [exact Hlen|]. split.
  - intro Hall.
    destruct Hcases as [[_ [Hf Hp]] | [i [pi [vi H]]]]; [now split|].
    destruct H as [_ [Hvi [Hlt _]]].
    apply nth_error_In in Hvi. apply Hall in Hvi.
    exfalso. exact (Qlt_not_le _ _ Hlt Hvi).
  - intros [v [Hin Hlt]].
    destruct Hcases as [[Hall _] | [i [pi [vi H]]]].
    + exfalso. exact (Qlt_not_le _ _ Hlt (Hall v Hin)).
    + destruct H as [Hpi [Hvi [_ [Hf [Hp [Hmin Hfirst]]]]]].
      exists i, pi, vi. now repeat split.
Qed.

(** C7, amended.  The first thing [run] does, before the executor exists, is
    to set [best_fval] to the number 1000 and [best_params] to [None],
    leaving the other fields and the backend alone; the rest of [run] starts
    from that state, so whatever best state the driver held before has no
    influence on the run. *)
Theorem run_resets_best (p shots : nat) (optimizer : Optimizer BState OptResult)
    (initial_parameters : option params) (rnd : nat -> Q) (w : World BState) :
  let w0 := snd (reset_best w) in
  fst (reset_best w) = Ok tt
  /\ best_fval (self w0) = Some (inject_Z 1000)
  /\ best_params (self w0) = Some None
  /\ cost_op (self w0) = cost_op (self w)
  /\ obj_value_fn (self w0) = obj_value_fn (self w)
  /\ init_circuit (self w0) = init_circuit (self w)
  /\ backend w0 = backend w
  /\ run QAOAAnsatz transpile backend_run p shots optimizer
         initial_parameters rnd w
     = run_optimize QAOAAnsatz transpile backend_run p shots optimizer
         initial_parameters rnd w0
  /\ forall bf bp,
       run QAOAAnsatz transpile backend_run p shots optimizer
           initial_parameters rnd
           (mkWorld (mkQAOAbf (cost_op (self w)) (obj_value_fn (self w))
                              (init_circuit (self w)) bf bp) (backend w))
       = run QAOAAnsatz transpile backend_run p shots optimizer
           initial_parameters rnd w.
Proof.
  cbv zeta. rewrite reset_best_state. cbn [fst snd self backend best_fval
    best_params cost_op obj_value_fn init_circuit].
  repeat split.
Qed.

(** What a returning [run] went through, step by step: the executor built
    right after the reset, the optimizer called on it with the starting
    point, the best state read back, and one more backend execution. *)
Lemma run_inversion {Res : Type} (p shots : nat)
    (optimizer : Optimizer BState Res)
    (initial_parameters : option params) (rnd : nat -> Q)
    (w w' : World BState) (res : Res) (outputs : counts) (bf : Q)
    (bp : option params) :
  run QAOAAnsatz transpile backend_run p shots optimizer initial_parameters
      rnd w
  = (Ok (res, outputs, bf, bp), w') ->
  exists circuit0 tcirc0 w2 circuit tcirc,
    QAOAAnsatz (cost_op (self w)) p = Ok circuit0
    /\ transpile circuit0 = Ok tcirc0
    /\ optimizer (execute backend_run tcirc0 shots)
         (match initial_parameters with
          | None => sample_initial_parameters p rnd
          | Some given => given
          end)
         (snd (reset_best w))
       = (Ok res, w2)
    /\ best_params (self w2) = Some bp
    /\ best_fval (self w2) = Some bf
    /\ QAOAAnsatz (cost_op (self w2)) p = Ok circuit
    /\ transpile circuit = Ok tcirc
    /\ backend_run tcirc bp shots (backend w2) = (Ok outputs, backend w')
    /\ self w' = self w2.
Proof.
  unfold run, run_optimize. unfold mbind at 1. rewrite reset_best_state.
  unfold mbind at 1.
  unfold get_executor, build_circuit, get_self, lift, ret.
  unfold mbind at 1. unfold mbind at 1. cbn [self cost_op].
  destruct (QAOAAnsatz (cost_op (self w)) p) as [circuit0|e] eqn:Hc0;
    [|discriminate].
  unfold mbind at 1.
  destruct (transpile circuit0) as [tcirc0|e] eqn:Ht0; [|discriminate].
  unfold mbind at 1.
  match goal with |- context [optimizer _ ?start ?wstart] =>
    set (x0 := start); set (w1 := wstart)
  end.
  destruct (optimizer (execute backend_run tcirc0 shots) x0 w1)
    as [[res0|e] w2] eqn:Hopt; [|discriminate].
  unfold mbind at 1. unfold getattr at 1.
  destruct (best_params (self w2)) as [bp0|] eqn:Hbp; [|discriminate].
  unfold mbind at 1. unfold get_outputs, build_circuit, get_self, lift,
    call_backend.
  unfold mbind at 1. unfold mbind at 1.
  destruct (QAOAAnsatz (cost_op (self w2)) p) as [circuit|e] eqn:Hc;
    [|discriminate].
  unfold mbind at 1.
  destruct (transpile circuit) as [tcirc|e] eqn:Ht; [|discriminate].
  destruct (backend_run tcirc bp0 shots (backend w2)) as [[outs|e] b'] eqn:Hrun;
    [|discriminate].
  unfold mbind, getattr. cbn [self].
  destruct (best_fval (self w2)) as [bf0|] eqn:Hbf; [|discriminate].
  cbn [self]. rewrite Hbp. intros [= <- <- <- <- <-].
  exists circuit0, tcirc0, w2, circuit, tcirc. cbn [self backend].
  repeat split; try assumption; try reflexivity.
Qed.

(** C8.  When every sample of [random_sample] lies in [0,1), the vector
    [x0] that [run] builds for [initial_parameters = None] has length exactly
    2p and every entry has a value in [0, pi).  It is the vector the
    optimizer receives: for every optimizer, [run] is the same as with the
    optimizer that ignores its starting point and minimizes from [x0]; an
    optimizer that just returns its starting point makes [run] return [x0];
    and [run] proceeds exactly as if [x0] had been given as
    [initial_parameters]. *)
Theorem run_default_initial_parameters (p shots : nat) (rnd : nat -> Q) :
  (forall i, (0 <= rnd i)%Q /\ (rnd i < 1)%Q) ->
  let x0 := sample_initial_parameters p rnd in
  List.length x0 = (2 * p)%nat
  /\ Forall (fun e => forall env,
               (0 <= pexpr_eval env e)%R /\ (pexpr_eval env e < PI)%R) x0
  /\ (forall (optimizer : Optimizer BState OptResult) w,
        run QAOAAnsatz transpile backend_run p shots optimizer None rnd w
        = run QAOAAnsatz transpile backend_run p shots
              (fun execfn _ => optimizer execfn x0) None rnd w)
  /\ (forall w w' res outputs bf bp,
        run QAOAAnsatz transpile backend_run p shots
            (fun _ start => ret start) None rnd w
        = (Ok (res, outputs, bf, bp), w') ->
        res = x0)
  /\ (forall (optimizer : Optimizer BState OptResult) w,
        run QAOAAnsatz transpile backend_run p shots optimizer None rnd w
        = run QAOAAnsatz transpile backend_run p shots optimizer (Some x0)
              rnd w).
Proof.
  intros Hrnd x0. split; [|split; [|split; [|split]]].
  - unfold x0, sample_initial_parameters, py_range.
    rewrite !length_map, length_seq. lia.
  - apply Forall_forall. intros e He.
    unfold x0, sample_initial_parameters in He.
    apply in_map_iff in He. destruct He as [i [<- _]].
    intro env. cbn [pexpr_eval].
    destruct (Hrnd (Z.to_nat i)) as [Hlo Hhi].
    apply Qle_Rle in Hlo. apply Qlt_Rlt in Hhi.
    rewrite RMicromega.Q2R_0 in Hlo. rewrite RMicromega.Q2R_1 in Hhi.
    pose proof PI_RGT_0 as Hpi. split; nra.
  - reflexivity.
  - intros w w' res outputs bf bp Hrun.
    apply run_inversion in Hrun.
    destruct Hrun as [c0 [t0 [w2 [c [t [_ [_ [Hopt _]]]]]]]].
    unfold ret in Hopt. now injection Hopt as <- _.
  - reflexivity.
Qed.

End DriverProperties.

(** ** The properties on concrete runs *)

Lemma best_after_calls_witness :
  exists (execfn : params -> M (list counts) Q)
         (w1 w' : World (list counts)) (vs : list Q),
    get_executor example_ansatz example_transpile replay_backend_run 1 1
                 (snd (reset_best example_world)) = (Ok execfn, w1)
    /\ call_sequence execfn example_calls w1 = (Ok vs, w')
    /\ vs = [1; 1 # 2; 2 # 4]
    /\ best_fval (self w') = Some (1 # 2)
    /\ best_params (self w') = Some (Some [PFloat 1; PFloat 0])
    /\ exists i pi vi,
         nth_error example_calls i = Some pi /\ nth_error vs i = Some vi
         /\ best_fval (self w') = Some vi
         /\ best_params (self w') = Some (Some pi)
         /\ (forall v, In v vs -> vi <= v)
         /\ (forall j vj, (j < i)%nat -> nth_error vs j = Some vj ->
                          vi < vj).
Proof.
  eexists. eexists. eexists. eexists.
  split; [reflexivity|]. split; [reflexivity|]. split; [reflexivity|].
  split; [reflexivity|]. split; [reflexivity|].
  apply (proj2 (proj2 (best_after_calls example_ansatz example_transpile
           replay_backend_run 1 1 (execute replay_backend_run tt 1)
           example_calls example_world (snd (reset_best example_world))
           (snd (call_sequence (execute replay_backend_run tt 1) example_calls
                   (snd (reset_best example_world))))
           [1; 1 # 2; 2 # 4] eq_refl eq_refl))).
  exists (1 # 2). split; [right; left; reflexivity | reflexivity].
Defined.

(** C4, as stated, fails: a call that returns 2000 after the reset leaves
    [best_fval] at 1000, which is not a returned value, and [best_params] at
    [None], which is not the call's parameter vector. *)
Lemma best_fval_not_minimum :
  exists (execfn : params -> M (list counts) Q)
         (w1 w' : World (list counts)),
    get_executor example_ansatz example_transpile replay_backend_run 1 1
                 (snd (reset_best large_objective_world)) = (Ok execfn, w1)
    /\ call_sequence execfn [[PFloat 0; PFloat 0]] w1 = (Ok [2000], w')
    /\ best_fval (self w') = Some 1000
    /\ ~ 1000 == 2000
    /\ best_params (self w') = Some None
    /\ best_params (self w') <> Some (Some [PFloat 0; PFloat 0]).
Proof.
  eexists. eexists. eexists.
  split; [reflexivity|]. split; [reflexivity|].
  split; [reflexivity|]. split; [discriminate|].
  split; [reflexivity | discriminate].
Qed.

Lemma execute_frame_witness :
  exists (execfn : params -> M (list counts) Q) (w1 : World (list counts)),
    get_executor example_ansatz example_transpile replay_backend_run 1 1
                 (snd (reset_best example_world)) = (Ok execfn, w1)
    /\ fst (execfn [PFloat 0; PFloat 0] w1) = Ok 1
    /\ cost_op (self (snd (execfn [PFloat 0; PFloat 0] w1)))
       = cost_op (self w1)
    /\ best_fval (self (snd (execfn [PFloat 0; PFloat 0] w1))) = Some 1
    /\ best_params (self (snd (execfn [PFloat 0; PFloat 0] w1)))
       = Some (Some [PFloat 0; PFloat 0]).
Proof.
  eexists. eexists. split; [reflexivity|]. split; [reflexivity|].
  split.
  - exact (proj1 (execute_frame example_ansatz example_transpile
                    replay_backend_run 1 1 (snd (reset_best example_world))
                    (snd (reset_best example_world))
                    (execute replay_backend_run tt 1) [PFloat 0; PFloat 0]
                    (snd (reset_best example_world)) eq_refl)).
  - split; reflexivity.
Defined.

(** C7, as stated, fails: the value stored by the reset is the number 1000,
    and an objective value can be larger than it. *)
Lemma reset_value_is_finite :
  best_fval (self (snd (reset_best large_objective_world))) = Some 1000
  /\ obj_fn (self large_objective_world) [("0", 1%Z)] = Ok 2000
  /\ ~ 2000 < 1000.
Proof.
  split; [reflexivity|]. split; [reflexivity|]. discriminate.
Qed.

Lemma run_default_initial_parameters_witness :
  (forall i : nat, (0 <= (fun _ => 1 # 2) i)%Q /\ ((fun _ => 1 # 2) i < 1)%Q)
  /\ sample_initial_parameters 1 (fun _ => 1 # 2)
     = [PMul (PFloat (1 # 2)) PPi; PMul (PFloat (1 # 2)) PPi]
  /\ run example_ansatz example_transpile replay_backend_run 1 1
         (fun _ start => ret start) None (fun _ => 1 # 2) example_world
     = (Ok ([PMul (PFloat (1 # 2)) PPi; PMul (PFloat (1 # 2)) PPi],
            [("00", 1%Z)], 1000, None),
        mkWorld (mkQAOAbf example_oracle
                   (fun b => Ok (example_objective b)) None
                   (Some 1000) (Some None))
                [[("00", 1%Z); ("11", 1%Z)]; [("11", 2%Z); ("00", 2%Z)]])
  /\ List.length (sample_initial_parameters 1 (fun _ => 1 # 2)) = 2%nat
  /\ Forall (fun e => forall env,
               (0 <= pexpr_eval env e)%R /\ (pexpr_eval env e < PI)%R)
            (sample_initial_parameters 1 (fun _ => 1 # 2)).
Proof.
  assert (Hrnd : forall i : nat,
             (0 <= (fun _ => 1 # 2) i)%Q /\ ((fun _ => 1 # 2) i < 1)%Q).
  { intro i. split; [discriminate | reflexivity]. }
  split; [exact Hrnd|]. split; [reflexivity|]. split; [reflexivity|].
  pose proof (run_default_initial_parameters (OptResult := params)
                example_ansatz example_transpile replay_backend_run 1 1
                (fun _ => 1 # 2) Hrnd) as [Hlen [Hrange _]].
  split; [exact Hlen | exact Hrange].
Defined.

(* ================================================================== *)
(** * Further properties of the module *)

(** ** Formula input generation *)

Lemma string_app_assoc (a b c : string) :
  ((a ++ b) ++ c)%string = (a ++ (b ++ c))%string.
Proof. induction a as [|ch a IH]; simpl; [reflexivity | now rewrite IH]. Qed.

Lemma string_app_nil_r (a : string) : (a ++ "")%string = a.
Proof. induction a as [|ch a IH]; simpl; [reflexivity | now rewrite IH]. Qed.

Lemma py_str_inj (a b : Z) : py_str a = py_str b -> a = b.
Proof.
  unfold py_str. intro H.
  assert (Hnn : forall z, Z.to_int z <> Decimal.Pos Decimal.Nil
                          /\ Z.to_int z <> Decimal.Neg Decimal.Nil).
  { intros [|q|q]; simpl; split; try discriminate;
      intros [= Hq]; exact (DecimalPos.Unsigned.to_uint_nonnil q Hq). }
  apply (f_equal DecimalString.NilZero.int_of_string) in H.
  rewrite !DecimalString.NilZero.isi in H by apply Hnn.
  injection H as H. now apply DecimalZ.to_int_inj.
Qed.

(** X1.  Different literals never get the same code: [lit_to_code] is
    injective on the integers, the wrap-around of [np.abs] at [-2**63]
    included. *)
Theorem lit_to_code_injective (a b : Z) :
  lit_to_code a = lit_to_code b -> a = b.
Proof.
  unfold lit_to_code, np_abs.
  change (- 2 ^ 63)%Z with (-9223372036854775808)%Z.
  destruct (a <? 0)%Z eqn:Ha, (b <? 0)%Z eqn:Hb; simpl; intro H;
    try discriminate; injection H as H; apply py_str_inj in H;
    try apply Z.ltb_lt in Ha; try apply Z.ltb_ge in Ha;
    try apply Z.ltb_lt in Hb; try apply Z.ltb_ge in Hb;
    destruct (Z.eqb_spec a (-9223372036854775808));
    destruct (Z.eqb_spec b (-9223372036854775808)); lia.
Qed.

Lemma lit_to_code_injective_witness :
  lit_to_code (- 2 ^ 63) = "not x-9223372036854775808"
  /\ lit_to_code (2 ^ 63) = "x9223372036854775808"
  /\ (lit_to_code (-3) = lit_to_code (-3) -> -3 = -3)%Z.
Proof.
  split; [reflexivity|]. split; [reflexivity|].
  exact (lit_to_code_injective (-3) (-3)).
Defined.

Lemma py_getitem_nil {A} (i : Z) : py_getitem (@nil A) i = Raise IndexError.
Proof.
  unfold py_getitem. simpl.
  destruct (i <? 0)%Z; destruct (_ <? 0)%Z; try reflexivity;
    unfold py_index; now destruct (Z.to_nat _).
Qed.

Lemma py_getitem_last {A} (init : list A) (a : A) :
  py_getitem (init ++ [a]) (-1) = Ok a.
Proof.
  unfold py_getitem. rewrite length_app. simpl List.length.
  replace (-1 <? 0)%Z with true by reflexivity.
  replace (-1 + Z.of_nat (List.length init + 1))%Z
    with (Z.of_nat (List.length init)) by lia.
  replace (Z.of_nat (List.length init) <? 0)%Z with false
    by (symmetry; apply Z.ltb_ge; lia).
  rewrite Nat2Z.id. unfold py_index.
  rewrite nth_error_app2, Nat.sub_diag by lia. reflexivity.
Qed.

Lemma py_slice_to_last {A} (init : list A) (a : A) :
  py_slice_to (-1) (init ++ [a]) = init.
Proof.
  unfold py_slice_to. rewrite length_app. simpl List.length.
  replace (-1 <? 0)%Z with true by reflexivity.
  replace (Z.to_nat (Z.max (-1 + Z.of_nat (List.length init + 1)) 0))
    with (List.length init) by lia.
  rewrite firstn_app, firstn_all, Nat.sub_diag. simpl. apply app_nil_r.
Qed.

Lemma py_slice_from_one {A} (a : A) (rest : list A) :
  py_slice_from 1 (a :: rest) = rest.
Proof.
  unfold py_slice_from. simpl List.length.
  replace (1 <? 0)%Z with false by reflexivity.
  replace (Z.to_nat (Z.min 1 (Z.of_nat (S (List.length rest))))) with 1%nat
    by lia.
  reflexivity.
Qed.

Lemma concat_push (sep c d : string) (tl : list string) :
  String.concat sep ((c ++ sep ++ d)%string :: tl)
  = (c ++ sep ++ String.concat sep (d :: tl))%string.
Proof.
  destruct tl as [|t ts]; simpl; [reflexivity|].
  now rewrite !string_app_assoc.
Qed.

Lemma join_loop (sep : string) (code : Z -> string) (rest : list Z) :
  forall acc,
  fold_left (fun acc lit => (acc ++ sep ++ code lit)%string) rest acc
  = String.concat sep (acc :: map code rest).
Proof.
  induction rest as [|r rs IH]; intro acc; [reflexivity|].
  cbn [fold_left map]. rewrite IH. apply concat_push.
Qed.

(** [clause_to_code] in closed form. *)
Lemma clause_to_code_unfold (clause : list Z) :
  clause_to_code clause
  = match clause with
    | [] => Raise IndexError
    | _ :: _ =>
        Ok ("(" ++ String.concat " or " (map lit_to_code clause) ++ ")")%string
    end.
Proof.
  destruct clause as [|l0 rest]; [reflexivity|].
  unfold clause_to_code.
  change (py_getitem (l0 :: rest) 0) with (Ok l0). cbn [rbind].
  rewrite py_slice_from_one, join_loop. reflexivity.
Qed.

(** X2.  An empty clause is refused with [IndexError]; for a non-empty
    clause the result is the codes of its literals, in order, joined by
    [" or "] and put in parentheses.  A literal -2^63 appears in it with
    its minus sign, as [lit_to_code] writes it. *)
Theorem clause_to_code_spec (clause : list Z) :
  clause_to_code clause
  = match clause with
    | [] => Raise IndexError
    | _ :: _ =>
        Ok ("(" ++ String.concat " or " (map lit_to_code clause) ++ ")")%string
    end
  /\ clause_to_code [(- 2 ^ 63)%Z; 1%Z]
     = Ok "(not x-9223372036854775808 or x1)".
Proof.
  split; [apply clause_to_code_unfold | vm_compute; reflexivity].
Qed.

Lemma concat_empty_cons (x : string) (xs : list string) :
  String.concat "" (x :: xs) = (x ++ String.concat "" xs)%string.
Proof.
  destruct xs; simpl; [now rewrite string_app_nil_r | reflexivity].
Qed.

Lemma concat_as_suffixes (sep : string) (l : list string) :
  forall x,
  String.concat sep (x :: l)
  = (x ++ String.concat "" (map (String.append sep) l))%string.
Proof.
  induction l as [|y l IH]; intro x.
  - simpl. now rewrite string_app_nil_r.
  - change (String.concat sep (x :: y :: l))
      with (x ++ sep ++ String.concat sep (y :: l))%string.
    rewrite IH. cbn [map]. rewrite concat_empty_cons.
    now rewrite !string_app_assoc.
Qed.

Lemma concat_trailing_sep (sep : string) (xs : list string) (last : string) :
  (String.concat "" (map (fun x => x ++ sep)%string xs) ++ last)%string
  = String.concat sep (xs ++ [last]).
Proof.
  induction xs as [|x xs IH]; [reflexivity|].
  cbn [map]. rewrite concat_empty_cons, !string_app_assoc, IH.
  cbn [app]. destruct (xs ++ [last]) eqn:E; [now destruct xs|].
  reflexivity.
Qed.

(** The clause loop of [get_classical_fn]: it fails on the first empty
    clause and otherwise appends every clause after [" and "]. *)
Lemma clause_loop_ok (clauses : list (list Z)) :
  ~ In [] clauses ->
  forall body,
  for_each (fun body clause =>
              try code <- clause_to_code clause ;;
              Ok (body ++ " and " ++ code)%string)
           clauses body
  = Ok (body ++ String.concat ""
                  (map (String.append " and ") (map clause_text clauses)))%string.
Proof.
  induction clauses as [|c cs IH]; intros Hne body.
  - simpl. now rewrite string_app_nil_r.
  - cbn [for_each]. rewrite clause_to_code_unfold.
    destruct c as [|l ls]; [exfalso; apply Hne; now left|].
    cbn [rbind]. rewrite IH by (intro; apply Hne; now right).
    cbn [map]. rewrite concat_empty_cons.
    unfold clause_text. cbn [map]. now rewrite !string_app_assoc.
Qed.

Lemma clause_loop_fails (clauses : list (list Z)) :
  In [] clauses ->
  forall body,
  for_each (fun body clause =>
              try code <- clause_to_code clause ;;
              Ok (body ++ " and " ++ code)%string)
           clauses body
  = Raise IndexError.
Proof.
  induction clauses as [|c cs IH]; intros Hin body; [destruct Hin|].
  cbn [for_each]. rewrite clause_to_code_unfold.
  destruct c as [|l ls]; [reflexivity|].
  cbn [rbind]. apply IH. destruct Hin as [H|H]; [discriminate | exact H].
Qed.

(** The list [symbols] and the signature built from it, for [n >= 1]. *)
Lemma signature_built (m : nat) :
  let symbols :=
    map (fun i => ("x" ++ py_str (i + 1))%string)
        (py_range 0 (Z.of_nat (S m))) in
  exists last,
    py_getitem symbols (-1) = Ok last
    /\ ("def boolfunc("
        ++ String.concat ""
             (map (fun symb => (symb ++ ": Int1,")%string)
                  (py_slice_to (-1) symbols))
        ++ (last ++ ": Int1") ++ ") -> Int1:")%string
       = signature_text (S m).
Proof.
  intro symbols.
  assert (Hsym : symbols
                 = map (fun i => ("x" ++ py_str (Z.of_nat i))%string)
                       (seq 1 (S m))).
  { unfold symbols. rewrite py_range_from_zero, <- seq_shift, !map_map.
    apply map_ext. intro i. now rewrite Nat2Z.inj_succ, Z.add_1_r. }
  rewrite Hsym, seq_S, map_app. cbn [map].
  set (init := map (fun i => ("x" ++ py_str (Z.of_nat i))%string) (seq 1 m)).
  set (a := ("x" ++ py_str (Z.of_nat (1 + m)))%string).
  exists a. rewrite py_getitem_last, py_slice_to_last.
  split; [reflexivity|].
  unfold signature_text. rewrite seq_S, map_app. cbn [map].
  fold a.
  replace (map (fun i => ("x" ++ py_str (Z.of_nat i) ++ ": Int1")%string)
               (seq 1 m))
    with (map (fun s => (s ++ ": Int1")%string) init)
    by (unfold init; rewrite map_map; apply map_ext; intro i;
        now rewrite string_app_assoc).
  replace (map (fun symb => (symb ++ ": Int1,")%string) init)
    with (map (fun x => (x ++ ",")%string)
              (map (fun s => (s ++ ": Int1")%string) init))
    by (rewrite map_map; apply map_ext; intro s;
        now rewrite string_app_assoc).
  f_equal.
  rewrite <- (string_app_assoc _ (a ++ ": Int1")%string ") -> Int1:").
  rewrite concat_trailing_sep. reflexivity.
Qed.

(** X3.  [get_classical_fn] raises [IndexError], without handing anything
    to the compiler, whenever there is no variable ([n <= 0]), no clause, or
    an empty clause. *)
Theorem get_classical_fn_rejects (compiler : string -> result Formula)
    (pysat_formula : list (list Z)) (n : Z) :
  (n <= 0)%Z \/ pysat_formula = [] \/ In [] pysat_formula ->
  get_classical_fn compiler pysat_formula n = Raise IndexError.
Proof.
  intro Hbad. unfold get_classical_fn.
  destruct (Z_le_gt_dec n 0) as [Hn|Hn].
  - unfold py_range. replace (Z.to_nat (n - 0)) with 0%nat by lia.
    cbn [seq map]. now rewrite py_getitem_nil.
  - destruct Hbad as [Hbad|Hbad]; [lia|].
    replace n with (Z.of_nat (S (Z.to_nat (n - 1)))) by lia.
    destruct (signature_built (Z.to_nat (n - 1))) as [last [Hlast _]].
    cbv zeta in Hlast. rewrite Hlast. cbn [rbind].
    destruct pysat_formula as [|c0 rest];
      [now rewrite py_getitem_nil|].
    destruct Hbad as [Hbad|Hbad]; [discriminate|].
    change (py_getitem (c0 :: rest) 0) with (Ok c0). cbn [rbind].
    rewrite clause_to_code_unfold.
    destruct c0 as [|l ls]; [reflexivity|]. cbn [rbind].
    rewrite py_slice_from_one.
    destruct Hbad as [Hbad|Hbad]; [discriminate|].
    now rewrite clause_loop_fails.
Qed.

Lemma get_classical_fn_rejects_witness :
  get_classical_fn example_compiler [[1; -2]; []]%Z 2 = Raise IndexError.
Proof.
  apply get_classical_fn_rejects. right. right. right. now left.
Defined.

(** X4.  With at least one variable, at least one clause and no empty
    clause, [get_classical_fn] hands the compiler exactly this text: the
    signature line with the parameters [x1 .. xn], a line feed, and the
    line [return] of the clauses, in order, joined by [" and "]; its result
    is the compiler's. *)
Theorem get_classical_fn_source (compiler : string -> result Formula)
    (pysat_formula : list (list Z)) (n : Z) :
  (1 <= n)%Z -> pysat_formula <> [] -> ~ In [] pysat_formula ->
  get_classical_fn compiler pysat_formula n
  = compiler (signature_text (Z.to_nat n) ++ newline ++ "    return "
              ++ String.concat " and " (map clause_text pysat_formula))%string.
Proof.
  intros Hn Hne Hcl. unfold get_classical_fn.
  replace n with (Z.of_nat (S (Z.to_nat (n - 1)))) by lia.
  destruct (signature_built (Z.to_nat (n - 1))) as [last [Hlast Hsig]].
  cbv zeta in Hlast, Hsig. rewrite Hlast. cbn [rbind]. rewrite Hsig.
  rewrite Nat2Z.id.
  destruct pysat_formula as [|c0 rest]; [congruence|].
  change (py_getitem (c0 :: rest) 0) with (Ok c0). cbn [rbind].
  rewrite clause_to_code_unfold.
  destruct c0 as [|l ls]; [exfalso; apply Hcl; now left|]. cbn [rbind].
  rewrite py_slice_from_one.
  rewrite clause_loop_ok by (intro; apply Hcl; now right). cbn [rbind].
  cbn [map]. rewrite (concat_as_suffixes " and "). reflexivity.
Qed.

Lemma get_classical_fn_source_witness :
  get_classical_fn (fun source => Raise (Exn source)) [[1; -2]; [2]]%Z 2
  = Raise (Exn (signature_text 2 ++ newline ++ "    return "
                ++ "(x1 or not x2) and (x2)")%string).
Proof.
  apply (get_classical_fn_source (fun source => Raise (Exn source))
           [[1; -2]; [2]]%Z 2); [lia | discriminate |].
  intros [H|[H|[]]]; discriminate.
Defined.

(** ** More on the objective function *)

Lemma get_objective_fn_unfold_range (f : Formula) (bitvec : string) (v : Z) :
  get_objective_fn f bitvec = Ok v -> v = 0%Z \/ v = 1%Z.
Proof.
  rewrite get_objective_fn_unfold. unfold verdict.
  destruct (simulate f _) as [[|out rest]|e]; simpl; try discriminate.
  destruct out; intros [= <-]; [now left | now right].
Qed.

(** X5.  Whenever the closure of [get_objective_fn] returns, it returns 0
    or 1, for every formula and every bitstring. *)
Theorem get_objective_fn_range (f : Formula) (bitvec : string) (v : Z) :
  get_objective_fn f bitvec = Ok v -> v = 0%Z \/ v = 1%Z.
Proof. apply get_objective_fn_unfold_range. Qed.

Lemma get_objective_fn_range_witness :
  get_objective_fn example_formula_x1 "10" = Ok 1%Z /\ (1 = 0 \/ 1 = 1)%Z.
Proof.
  split; [reflexivity|].
  exact (get_objective_fn_range example_formula_x1 "10" 1 eq_refl).
Defined.

(** X6.  Bit order.  For a formula with k >= 1 input variables and a
    bitstring of length at least k, the vector handed to [simulate] has
    length k and its i-th entry tells whether the i-th character counted
    from the end of the bitstring is '1': the last character is input 0. *)
Theorem get_objective_fn_bit_order (f : Formula) (bitvec : string) :
  let k := List.length (args f) in
  let chars := list_ascii_of_string bitvec in
  (1 <= k)%nat -> (k <= List.length chars)%nat ->
  exists inputs,
    get_objective_fn f bitvec = verdict (simulate f inputs)
    /\ List.length inputs = k
    /\ forall i, (i < k)%nat ->
         nth_error inputs i
         = option_map (fun c => Ascii.eqb c "1"%char)
             (nth_error chars (List.length chars - 1 - i)).
Proof.
  intros k chars Hk Hlen.
  set (anc := firstn (List.length chars - k) chars).
  set (inp := skipn (List.length chars - k) chars).
  assert (Hsplit : chars = anc ++ inp) by (symmetry; apply firstn_skipn).
  assert (Hinp : List.length inp = k).
  { unfold inp. rewrite length_skipn. lia. }
  exists (bits_of_reversed inp). split; [|split].
  - rewrite get_objective_fn_unfold. fold chars. fold k.
    rewrite Hsplit at 1. now rewrite py_slice_from_last.
  - unfold bits_of_reversed. now rewrite length_map, length_rev.
  - intros i Hi. unfold bits_of_reversed.
    rewrite nth_error_map, nth_error_rev, Hinp.
    replace (i <? k)%nat with true by (symmetry; apply Nat.ltb_lt; lia).
    unfold inp. rewrite nth_error_skipn. do 2 f_equal. lia.
Qed.

Lemma get_objective_fn_bit_order_witness :
  exists inputs,
    get_objective_fn example_formula_and "010" = verdict (simulate example_formula_and inputs)
    /\ List.length inputs = 2%nat
    /\ forall i, (i < 2)%nat ->
         nth_error inputs i
         = option_map (fun c => Ascii.eqb c "1"%char)
             (nth_error (list_ascii_of_string "010") (3 - 1 - i)).
Proof.
  apply (get_objective_fn_bit_order example_formula_and "010"); simpl; lia.
Defined.

(** ** More on [obj_fn] *)





Lemma total_count_perm (cts cts' : counts) :
  Permutation.Permutation cts cts' -> total_count cts = total_count cts'.
Proof.
  induction 1 as [| it l l' _ IH | it it' l | l l' l'' _ IH1 _ IH2]; simpl.
  - reflexivity.
  - now rewrite IH.
  - lia.
  - congruence.
Qed.

Lemma weighted_sum_int_perm (f : string -> Z) (cts cts' : counts) :
  Permutation.Permutation cts cts' ->
  weighted_sum_int f cts = weighted_sum_int f cts'.
Proof.
  induction 1 as [| it l l' _ IH | it it' l | l l' l'' _ IH1 _ IH2];
    cbn [weighted_sum_int fold_right].
  - reflexivity.
  - fold (weighted_sum_int f l). fold (weighted_sum_int f l'). now rewrite IH.
  - lia.
  - congruence.
Qed.

(** X8.  For an objective that returns integers on the bitstrings of the
    mapping, as the closure of [get_objective_fn] does, the order of the
    entries does not matter: on a reordering of the items [obj_fn] has the
    same outcome, the same double or the same exception.  The two sums are
    exact integers, so nothing is rounded before the final division. *)
Theorem obj_fn_order_independent
    (obj_value_fn : string -> result Floating.pynum) (f : string -> Z)
    (cts cts' : counts) :
  Forall (fun it => obj_value_fn (fst it) = Ok (Floating.PyInt (f (fst it))))
         cts ->
  Permutation.Permutation cts cts' ->
  Floating.obj_fn obj_value_fn cts = Floating.obj_fn obj_value_fn cts'.
Proof.
  intros Hint Hperm.
  assert (Hint' : Forall (fun it => obj_value_fn (fst it)
                                    = Ok (Floating.PyInt (f (fst it)))) cts')
    by (eapply Permutation.Permutation_Forall; eassumption).
  rewrite (floating_obj_fn_closed_form obj_value_fn f cts Hint).
  rewrite (floating_obj_fn_closed_form obj_value_fn f cts' Hint').
  now rewrite (weighted_sum_int_perm f _ _ Hperm), (total_count_perm _ _ Hperm).
Qed.

Lemma obj_fn_order_independent_witness :
  Floating.obj_fn (int_objective (get_objective_fn example_formula_x1))
                  [("00", 1%Z); ("01", 3%Z)]
  = Floating.obj_fn (int_objective (get_objective_fn example_formula_x1))
                    [("01", 3%Z); ("00", 1%Z)].
Proof.
  apply (obj_fn_order_independent _ example_int_objective);
    [repeat constructor | apply Permutation.perm_swap].
Defined.

(** X9.  What [obj_fn] returns depends on the rounding of each operation.
    Multiplying every count by 2^53 + 1 changes the result for one "00" and
    two "11" from 0.3333333333333333 to 0.33333333333333326, since the
    scaled sums no longer convert to doubles exactly.  With the float
    objective values 0.1, 0.2 and 0.3 the products and the running sum are
    rounded in iteration order, and the two orders of the same three items
    give 0.20000000000000004 and 0.19999999999999998.  With the constant
    objective 0.1, three shots give 0.10000000000000002, which is above
    every value of the objective. *)
Theorem obj_fn_rounding_examples :
  (Floating.obj_fn (int_objective (fun b => Ok (example_int_objective b)))
                   [("00", 1%Z); ("11", 2%Z)]
   = Ok (S754_finite false 6004799503160661 (-54))
   /\ Floating.obj_fn (int_objective (fun b => Ok (example_int_objective b)))
                      (scale_counts (2 ^ 53 + 1) [("00", 1%Z); ("11", 2%Z)])
      = Ok (S754_finite false 6004799503160660 (-54)))
  /\ (Floating.obj_fn float_objective [("a", 1%Z); ("b", 1%Z); ("c", 1%Z)]
      = Ok (S754_finite false 7205759403792795 (-55))
      /\ Floating.obj_fn float_objective [("c", 1%Z); ("b", 1%Z); ("a", 1%Z)]
         = Ok (S754_finite false 7205759403792793 (-55)))
  /\ (Floating.obj_fn float_objective [("a", 3%Z)]
      = Ok (S754_finite false 7205759403792795 (-56))
      /\ SFcompare double_0_1 (S754_finite false 7205759403792795 (-56))
         = Some Lt).
Proof.
  repeat split; vm_compute; reflexivity.
Qed.





(** ** More on the executor and [run] *)

Section DriverMore.

Context {Ansatz TCirc BState OptResult : Type}.
Variable QAOAAnsatz : QuantumCircuit -> nat -> result Ansatz.
Variable transpile : Ansatz -> result TCirc.
Variable backend_run :
  TCirc -> option params -> nat -> BState -> result counts * BState.

(** The state after a sequence of calls, finished or aborted. *)
Lemma call_sequence_state (execfn : params -> M BState Q) (ps0 : params)
    (ps : list params) (w : World BState) :
  snd (call_sequence execfn (ps0 :: ps) w)
  = match fst (execfn ps0 w) with
    | Ok _ => snd (call_sequence execfn ps (snd (execfn ps0 w)))
    | Raise _ => snd (execfn ps0 w)
    end.
Proof.
  cbn [call_sequence]. unfold mbind at 1.
  destruct (execfn ps0 w) as [[v|e] w1]; [|reflexivity].
  unfold mbind. cbn [fst snd].
  destruct (call_sequence execfn ps w1) as [[vs|e] w2]; reflexivity.
Qed.

Lemma execute_best_monotone (tcirc : TCirc) (shots : nat) (ps : params)
    (w : World BState) (b : Q) :
  best_fval (self w) = Some b ->
  exists b', best_fval (self (snd (execute backend_run tcirc shots ps w)))
             = Some b' /\ b' <= b.
Proof.
  intro Hb. rewrite execute_unfold.
  destruct (backend_run tcirc (Some ps) shots (backend w)) as [[cts|e] b1];
    [|exists b; split; [exact Hb | apply Qle_refl]].
  destruct (obj_fn (self w) cts) as [v|e];
    [|exists b; split; [exact Hb | apply Qle_refl]].
  rewrite Hb. destruct (Qltb v b) eqn:Hcmp.
  - exists v. split; [reflexivity|]. apply Qltb_lt in Hcmp.
    now apply Qlt_le_weak.
  - exists b. split; [exact Hb | apply Qle_refl].
Qed.

Lemma execute_consistent (tcirc : TCirc) (shots : nat) (ps : params)
    (w : World BState) :
  best_state_consistent (self w) ->
  best_state_consistent (self (snd (execute backend_run tcirc shots ps w))).
Proof.
  intro Hc. rewrite execute_unfold.
  destruct (backend_run tcirc (Some ps) shots (backend w)) as [[cts|e] b1];
    [|exact Hc].
  destruct (obj_fn (self w) cts) as [v|e]; [|exact Hc].
  destruct (best_fval (self w)) as [b|] eqn:Hb; [|exact Hc].
  destruct (Qltb v b) eqn:Hcmp; [|exact Hc].
  apply Qltb_lt in Hcmp. right. exists v, ps. cbn.
  split; [reflexivity|]. split; [|reflexivity].
  destruct Hc as [[Hf _] | [v0 [ps' [Hf [Hlt _]]]]];
    rewrite Hb in Hf; injection Hf as ->.
  - exact Hcmp.
  - now apply Qlt_trans with v0.
Qed.

(** X12.  The executor does not work before [run]: on a driver whose
    [best_fval] was never assigned, every call of the closure returned by
    [get_executor] ends in an exception and leaves the driver as it was;
    when the backend and the scoring succeed, the exception is
    [AttributeError] and the backend execution has been spent. *)
Theorem executor_before_run (p shots : nat) (w0 w1 : World BState)
    (execfn : params -> M BState Q) (ps : params) (w : World BState) :
  get_executor QAOAAnsatz transpile backend_run p shots w0 = (Ok execfn, w1) ->
  best_fval (self w) = None ->
  (exists e, fst (execfn ps w) = Raise e)
  /\ self (snd (execfn ps w)) = self w
  /\ exists tcirc,
       forall cts b' v,
         backend_run tcirc (Some ps) shots (backend w) = (Ok cts, b') ->
         obj_fn (self w) cts = Ok v ->
         execfn ps w = (Raise AttributeError, mkWorld (self w) b').
Proof.
  intros Hget Hnone.
  destruct (get_executor_returns _ _ _ _ _ _ _ _ Hget) as [_ [tcirc ->]].
  rewrite execute_unfold.
  split; [|split].
  - destruct (backend_run tcirc (Some ps) shots (backend w)) as [[cts|e] b1];
      [|now exists e].
    destruct (obj_fn (self w) cts) as [v|e]; [|now exists e].
    rewrite Hnone. now exists AttributeError.
  - destruct (backend_run tcirc (Some ps) shots (backend w)) as [[cts|e] b1];
      [|reflexivity].
    destruct (obj_fn (self w) cts) as [v|e]; [|reflexivity].
    now rewrite Hnone.
  - exists tcirc. intros cts b' v Hrun Hobj.
    now rewrite Hrun, Hobj, Hnone.
Qed.

(** X13.  The recorded best value never increases: over any sequence of
    calls of the executor, also one that an exception cuts short,
    [best_fval] stays assigned and ends at most where it started. *)
Theorem best_fval_never_increases (p shots : nat) (w0 w1 : World BState)
    (execfn : params -> M BState Q) (ps : list params) (w : World BState)
    (b : Q) :
  get_executor QAOAAnsatz transpile backend_run p shots w0 = (Ok execfn, w1) ->
  best_fval (self w) = Some b ->
  exists b', best_fval (self (snd (call_sequence execfn ps w))) = Some b'
             /\ b' <= b.
Proof.
  intros Hget.
  destruct (get_executor_returns _ _ _ _ _ _ _ _ Hget) as [_ [tcirc ->]].
  clear Hget. revert w b.
  induction ps as [|ps0 ps IH]; intros w b Hb.
  - exists b. split; [exact Hb | apply Qle_refl].
  - rewrite call_sequence_state.
    destruct (execute_best_monotone tcirc shots ps0 w b Hb) as [b1 [Hb1 Hle1]].
    destruct (fst (execute backend_run tcirc shots ps0 w)) as [v|e].
    + destruct (IH _ _ Hb1) as [b2 [Hb2 Hle2]].
      exists b2. split; [exact Hb2 | now apply Qle_trans with b1].
    + now exists b1.
Qed.

(** X14.  After [run]'s reset, over any sequence of calls of the executor,
    also one that an exception cuts short, the best state stays consistent:
    either [best_fval] is 1000 and [best_params] is [None], or [best_fval]
    is below 1000 and [best_params] is a parameter vector. *)
Theorem best_state_stays_consistent (p shots : nat) (w1 : World BState)
    (execfn : params -> M BState Q) (ps : list params) (w : World BState) :
  get_executor QAOAAnsatz transpile backend_run p shots (snd (reset_best w))
  = (Ok execfn, w1) ->
  best_state_consistent (self (snd (call_sequence execfn ps w1))).
Proof.
  intros Hget.
  destruct (get_executor_returns _ _ _ _ _ _ _ _ Hget) as [-> [tcirc ->]].
  clear Hget.
  assert (Hinit : best_state_consistent (self (snd (reset_best w)))).
  { rewrite reset_best_state. left. split; reflexivity. }
  revert Hinit. generalize (snd (reset_best w)). clear w.
  induction ps as [|ps0 ps IH]; intros w Hc; [exact Hc|].
  rewrite call_sequence_state.
  pose proof (execute_consistent tcirc shots ps0 w Hc) as Hc1.
  destruct (fst (execute backend_run tcirc shots ps0 w)) as [v|e];
    [now apply IH | exact Hc1].
Qed.

(** X15.  [get_outputs] never touches the driver: whatever happens, the
    instance is as before; and when building or transpiling the ansatz
    fails, the backend is not used either. *)
Theorem get_outputs_frame (p : nat) (parameters : option params)
    (shots : nat) (w : World BState) :
  self (snd (get_outputs QAOAAnsatz transpile backend_run p parameters shots w))
  = self w
  /\ (forall e,
        QAOAAnsatz (cost_op (self w)) p = Raise e
        \/ (exists circuit, QAOAAnsatz (cost_op (self w)) p = Ok circuit
                            /\ transpile circuit = Raise e) ->
        get_outputs QAOAAnsatz transpile backend_run p parameters shots w
        = (Raise e, w)).
Proof.
  unfold get_outputs, build_circuit, mbind, get_self, lift, call_backend.
  split.
  - destruct (QAOAAnsatz (cost_op (self w)) p) as [circuit|e]; [|reflexivity].
    destruct (transpile circuit) as [tcirc|e]; [|reflexivity].
    now destruct (backend_run tcirc parameters shots (backend w)).
  - intros e [Hfail | [circuit [Hok Hfail]]].
    + now rewrite Hfail.
    + now rewrite Hok, Hfail.
Qed.

(** X16.  A run that cannot build its circuit loses the earlier result:
    when building or transpiling the ansatz fails, [run] raises that
    exception without calling the optimizer or the backend, and leaves
    [best_fval] at 1000 and [best_params] at [None], whatever they were
    before. *)
Theorem run_fails_before_optimizing (p shots : nat)
    (optimizer : Optimizer BState OptResult)
    (initial_parameters : option params) (rnd : nat -> Q)
    (w : World BState) (e : exn) :
  QAOAAnsatz (cost_op (self w)) p = Raise e
  \/ (exists circuit, QAOAAnsatz (cost_op (self w)) p = Ok circuit
                      /\ transpile circuit = Raise e) ->
  run QAOAAnsatz transpile backend_run p shots optimizer initial_parameters
      rnd w
  = (Raise e,
     mkWorld (mkQAOAbf (cost_op (self w)) (obj_value_fn (self w))
                (init_circuit (self w)) (Some initial_best_fval) (Some None))
             (backend w)).
Proof.
  intro Hfail.
  unfold run, run_optimize, get_executor, build_circuit, get_self, lift.
  unfold mbind at 1. rewrite reset_best_state.
  unfold mbind. cbn [self cost_op].
  destruct Hfail as [Hfail | [circuit [Hok Hfail]]].
  - now rewrite Hfail.
  - now rewrite Hok, Hfail.
Qed.

(** X17.  What [run] returns.  [run] returns [(result, outputs, bf, bp)]
    exactly when: the ansatz could be built and transpiled; the optimizer,
    called in the reset state on the executor of that circuit and on the
    starting point, returned [result]; in the state [w2] the optimizer left,
    [best_fval] is [bf] and [best_params] is [bp]; and [outputs] are the
    counts of one more backend execution, made from [w2] with the rebuilt
    circuit and the parameters [bp].  The driver is then as the optimizer
    left it. *)
Theorem run_returns_best_state (p shots : nat)
    (optimizer : Optimizer BState OptResult)
    (initial_parameters : option params) (rnd : nat -> Q)
    (w w' : World BState) (res : OptResult) (outputs : counts) (bf : Q)
    (bp : option params) :
  run QAOAAnsatz transpile backend_run p shots optimizer initial_parameters
      rnd w
  = (Ok (res, outputs, bf, bp), w')
  <->
  exists circuit0 tcirc0 w2 circuit tcirc,
    QAOAAnsatz (cost_op (self w)) p = Ok circuit0
    /\ transpile circuit0 = Ok tcirc0
    /\ optimizer (execute backend_run tcirc0 shots)
         (match initial_parameters with
          | None => sample_initial_parameters p rnd
          | Some given => given
          end)
         (snd (reset_best w))
       = (Ok res, w2)
    /\ best_params (self w2) = Some bp
    /\ best_fval (self w2) = Some bf
    /\ QAOAAnsatz (cost_op (self w2)) p = Ok circuit
    /\ transpile circuit = Ok tcirc
    /\ backend_run tcirc bp shots (backend w2) = (Ok outputs, backend w')
    /\ self w' = self w2.
Proof.
  split; [apply run_inversion|].
  intros [circuit0 [tcirc0 [w2 [circuit [tcirc
            [Hc0 [Ht0 [Hopt [Hbp [Hbf [Hc [Ht [Hrun Hself]]]]]]]]]]]]].
  destruct w' as [s' b']. cbn [self backend] in Hrun, Hself. subst s'.
  unfold run, run_optimize. unfold mbind at 1. rewrite reset_best_state.
  rewrite reset_best_state in Hopt. cbn [snd] in Hopt.
  unfold mbind at 1.
  unfold get_executor, build_circuit, get_self, lift, ret.
  unfold mbind at 1. unfold mbind at 1. cbn [self cost_op].
  rewrite Hc0. unfold mbind at 1. rewrite Ht0. unfold mbind at 1.
  rewrite Hopt.
  unfold mbind at 1. unfold getattr at 1. rewrite Hbp.
  unfold mbind at 1. unfold get_outputs, build_circuit, get_self, lift,
    call_backend.
  unfold mbind at 1. unfold mbind at 1. rewrite Hc.
  unfold mbind at 1. rewrite Ht, Hrun.
  unfold mbind, getattr. cbn [self]. rewrite Hbf. cbn [self].
  now rewrite Hbp.
Qed.

End DriverMore.

Lemma executor_before_run_witness :
  exists e,
    fst (execute replay_backend_run tt 1 [PFloat 0]
           (mkWorld (example_driver (fun b => Ok (example_objective b)))
                    [[("00", 1%Z)]]))
    = Raise e.
Proof.
  exact (proj1 (executor_before_run example_ansatz example_transpile
                  replay_backend_run 1 1 example_world example_world
                  (execute replay_backend_run tt 1) [PFloat 0]
                  (mkWorld (example_driver (fun b => Ok (example_objective b)))
                           [[("00", 1%Z)]])
                  eq_refl eq_refl)).
Defined.

Lemma best_fval_never_increases_witness :
  exists b',
    best_fval (self (snd (call_sequence (execute replay_backend_run tt 1)
                            (example_calls ++ example_calls)
                            (snd (reset_best example_world)))))
    = Some b'
    /\ b' <= 1000.
Proof.
  exact (best_fval_never_increases example_ansatz example_transpile
           replay_backend_run 1 1 example_world example_world
           (execute replay_backend_run tt 1) (example_calls ++ example_calls)
           (snd (reset_best example_world)) 1000 eq_refl eq_refl).
Defined.

Lemma best_state_stays_consistent_witness :
  best_state_consistent
    (self (snd (call_sequence (execute replay_backend_run tt 1)
                  (example_calls ++ example_calls)
                  (snd (reset_best example_world))))).
Proof.
  exact (best_state_stays_consistent example_ansatz example_transpile
           replay_backend_run 1 1 (snd (reset_best example_world))
           (execute replay_backend_run tt 1) (example_calls ++ example_calls)
           example_world eq_refl).
Defined.

Lemma get_outputs_frame_witness :
  get_outputs (fun _ _ => Raise (Exn "ValueError")) example_transpile
              replay_backend_run 1 None 1 example_world
  = (Raise (Exn "ValueError"), example_world).
Proof.
  apply (proj2 (get_outputs_frame (fun _ _ => Raise (Exn "ValueError"))
                  example_transpile replay_backend_run 1 None 1 example_world)).
  now left.
Defined.

Lemma run_fails_before_optimizing_witness :
  run example_ansatz (fun _ => Raise (Exn "TranspilerError"))
      replay_backend_run 1 1 single_shot_optimizer None (fun _ => 1 # 2)
      (snd (call_sequence (execute replay_backend_run tt 1) example_calls
              (snd (reset_best example_world))))
  = (Raise (Exn "TranspilerError"),
     mkWorld (mkQAOAbf example_oracle (fun b => Ok (example_objective b)) None
                (Some initial_best_fval) (Some None))
             []).
Proof.
  apply (run_fails_before_optimizing example_ansatz
           (fun _ => Raise (Exn "TranspilerError")) replay_backend_run 1 1
           single_shot_optimizer None (fun _ => 1 # 2)
           (snd (call_sequence (execute replay_backend_run tt 1) example_calls
                   (snd (reset_best example_world))))).
  right. exists tt. split; reflexivity.
Defined.

Lemma run_returns_best_state_witness :
  run example_ansatz example_transpile replay_backend_run 1 1
      single_shot_optimizer (Some [PFloat 0; PFloat 0]) (fun _ => 1 # 2)
      example_world
  = (Ok (1, [("00", 1%Z); ("11", 1%Z)], 1, Some [PFloat 0; PFloat 0]),
     mkWorld (record_best (self example_world) 1 [PFloat 0; PFloat 0])
             [[("11", 2%Z); ("00", 2%Z)]])
  /\ exists circuit0 tcirc0 w2 circuit tcirc,
       example_ansatz (cost_op (self example_world)) 1 = Ok circuit0
       /\ example_transpile circuit0 = Ok tcirc0
       /\ single_shot_optimizer (execute replay_backend_run tcirc0 1)
            [PFloat 0; PFloat 0] (snd (reset_best example_world))
          = (Ok 1, w2)
       /\ best_params (self w2) = Some (Some [PFloat 0; PFloat 0])
       /\ best_fval (self w2) = Some 1
       /\ example_ansatz (cost_op (self w2)) 1 = Ok circuit
       /\ example_transpile circuit = Ok tcirc
       /\ replay_backend_run tcirc (Some [PFloat 0; PFloat 0]) 1 (backend w2)
          = (Ok [("00", 1%Z); ("11", 1%Z)], [[("11", 2%Z); ("00", 2%Z)]])
       /\ record_best (self example_world) 1 [PFloat 0; PFloat 0] = self w2.
Proof.
  split; [reflexivity|].
  exact (proj1 (run_returns_best_state example_ansatz example_transpile
                  replay_backend_run 1 1 single_shot_optimizer
                  (Some [PFloat 0; PFloat 0]) (fun _ => 1 # 2) example_world
                  (mkWorld (record_best (self example_world) 1
                              [PFloat 0; PFloat 0])
                           [[("11", 2%Z); ("00", 2%Z)]])
                  1 [("00", 1%Z); ("11", 1%Z)] 1 (Some [PFloat 0; PFloat 0]))
               eq_refl).
Defined.

(** ** More on the cost circuit *)

Lemma get_cost_circuit_data (f : Formula) (B : QuantumCircuit) :
  synth f = Ok B -> (1 <= num_qubits B)%nat ->
  get_cost_circuit f
  = Ok (mkCircuit (num_qubits B)
          [XGate (num_qubits B - 1);
           Composite (num_qubits B) (data B) (seq 0 (num_qubits B));
           PhaseGate (PMul (PInt (-1)) PPi) (num_qubits B - 1);
           Composite (num_qubits B) (data B) (seq 0 (num_qubits B));
           XGate (num_qubits B - 1)]).
Proof.
  intros Hsynth Hn. unfold get_cost_circuit. rewrite Hsynth. cbn [rbind].
  unfold new_circuit.
  replace (Z.of_nat (num_qubits B) <? 0)%Z with false
    by (symmetry; apply Z.ltb_ge; lia).
  cbn [rbind]. rewrite Nat2Z.id.
  rewrite x_last by exact Hn. cbn [rbind num_qubits].
  rewrite append_all_qubits by reflexivity. cbn [rbind num_qubits].
  rewrite p_last by exact Hn. cbn [rbind num_qubits].
  rewrite append_all_qubits by reflexivity. cbn [rbind num_qubits].
  rewrite x_last by exact Hn. reflexivity.
Qed.

(** X18.  Whenever [get_cost_circuit] returns a circuit, [synth()] had
    returned an oracle with at least one qubit, the circuit is as wide as
    that oracle, it has exactly five instructions, and its instruction list
    reads the same backwards as forwards (flip, compute, phase, uncompute,
    flip). *)
Theorem get_cost_circuit_shape (f : Formula) (c : QuantumCircuit) :
  get_cost_circuit f = Ok c ->
  (exists B, synth f = Ok B /\ (1 <= num_qubits B)%nat
             /\ num_qubits c = num_qubits B)
  /\ List.length (data c) = 5%nat
  /\ rev (data c) = data c.
Proof.
  intro Hc.
  destruct (synth f) as [B|e] eqn:Hsynth;
    [|unfold get_cost_circuit in Hc; rewrite Hsynth in Hc; discriminate].
  destruct (num_qubits B) as [|m] eqn:Hq.
  - rewrite (get_cost_circuit_no_qubit f B Hsynth Hq) in Hc. discriminate.
  - rewrite (get_cost_circuit_data f B Hsynth) in Hc by lia.
    injection Hc as <-. cbn [num_qubits data]. rewrite Hq.
    split; [|split; reflexivity].
    exists B. repeat split; lia.
Qed.

Lemma get_cost_circuit_shape_witness :
  List.length
    [XGate 1; Composite 2 [XGate 1] [0%nat; 1%nat];
     PhaseGate (PMul (PInt (-1)) PPi) 1;
     Composite 2 [XGate 1] [0%nat; 1%nat]; XGate 1] = 5%nat.
Proof.
  exact (proj1 (proj2 (get_cost_circuit_shape example_formula_x1
                         (mkCircuit 2 [XGate 1;
                                       Composite 2 [XGate 1] [0%nat; 1%nat];
                                       PhaseGate (PMul (PInt (-1)) PPi) 1;
                                       Composite 2 [XGate 1] [0%nat; 1%nat];
                                       XGate 1])
                         eq_refl))).
Defined.
